(** * Ai-Translator relay: a shallow embedding of [server.js]

    The relay exposes three POST endpoints ([/translate], [/suggest-reply],
    [/synthesize-speech]).  Each handler checks a server-held credential,
    destructures the JSON request body, checks the required fields, performs
    one outbound [fetch] and reshapes the upstream answer.

    The embedding follows the JavaScript of the handlers:
    - JavaScript strings are sequences of UTF-16 code units;
    - the values that [express.json()] and [response.json()] hand to the
      handlers are JSON values (plus [undefined], which property reads yield);
    - what [res.json] and the [fetch] body send is [JSON.stringify] of a
      value, taken as the JSON value that the text denotes;
    - [throw] / [try ... catch], the outbound [fetch] and [console.error] are
      effects of a small error-and-trace monad; the upstream API is a function
      from the outbound request to what [fetch] settles with. *)

From Stdlib Require Import List NArith ZArith Bool String Ascii Lia.
From Stdlib Require Import SpecFloat DecimalString.
Import ListNotations.

Set Implicit Arguments.
Set Warnings "-register-all".

(* ================================================================== *)
(** ** JavaScript strings *)

Module JsString.

(** A JavaScript string is a sequence of 16-bit code units. *)
Definition code_unit := N.
Definition jsstring := list code_unit.

(** A source-code literal (all literals of [server.js] are ASCII). *)
Definition js (s : string) : jsstring :=
  map N_of_ascii (list_ascii_of_string s).

Fixpoint eqb (a b : jsstring) : bool :=
  match a, b with
  | [], [] => true
  | x :: a', y :: b' => N.eqb x y && eqb a' b'
  | _, _ => false
  end.

Definition LF : code_unit := 10%N.
Definition SPACE : code_unit := 32%N.

(** ECMA-262 WhiteSpace and LineTerminator code points, the set that
    [String.prototype.trim] strips: TAB, LF, VT, FF, CR, SP, NBSP,
    U+1680, U+2000..U+200A, LS, PS, U+202F, U+205F, U+3000, U+FEFF. *)
Definition is_white_space (c : code_unit) : bool :=
  existsb (N.eqb c)
    [9; 10; 11; 12; 13; 32; 160; 5760; 8232; 8233; 8239; 8287; 12288; 65279]%N
  || (N.leb 8192 c && N.leb c 8202).

Fixpoint drop_while (p : code_unit -> bool) (s : jsstring) : jsstring :=
  match s with
  | [] => []
  | c :: s' => if p c then drop_while p s' else s
  end.

Definition trimStart (s : jsstring) : jsstring := drop_while is_white_space s.
Definition trimEnd (s : jsstring) : jsstring :=
  rev (drop_while is_white_space (rev s)).

(** [String.prototype.trim] *)
Definition trim (s : jsstring) : jsstring := trimEnd (trimStart s).

Fixpoint is_prefix (p s : jsstring) : bool :=
  match p, s with
  | [], _ => true
  | x :: p', y :: s' => N.eqb x y && is_prefix p' s'
  | _ :: _, [] => false
  end.

(** [String.prototype.includes(search)] (from position 0): [search] occurs
    as a contiguous run of code units. *)
Fixpoint includes (s search : jsstring) : bool :=
  is_prefix search s ||
  match s with
  | [] => false
  | _ :: s' => includes s' search
  end.

(** [String.prototype.split(sep)] for a separator of one code unit, which
    is how [server.js] calls it ([split('\n')]).  The result is never empty:
    the empty string splits into one empty piece. *)
Fixpoint split (sep : code_unit) (s : jsstring) : list jsstring :=
  match s with
  | [] => [[]]
  | c :: s' =>
      if N.eqb c sep then [] :: split sep s'
      else match split sep s' with
           | [] => [[c]]
           | piece :: rest => (c :: piece) :: rest
           end
  end.

(** [Array.prototype.join(sep)] on an array of strings. *)
Fixpoint join (sep : jsstring) (l : list jsstring) : jsstring :=
  match l with
  | [] => []
  | [x] => x
  | x :: rest => x ++ sep ++ join sep rest
  end.

End JsString.
Import JsString.

(* ================================================================== *)
(** ** JavaScript values, exceptions and the runtime's own strings *)

Module Js.

(** A Number is an IEEE 754 double; [spec_float] is read up to the value it
    denotes ([S754_finite s m e] stands for (-1)^s * m * 2^e). *)
Definition number := spec_float.

(** What [JSON.parse] produces, with [undefined] for absent properties.
    An object lists its own properties; after [JSON.parse] no key occurs
    twice. *)
Inductive value : Type :=
| VUndefined
| VNull
| VBool (b : bool)
| VNum (n : number)
| VStr (s : jsstring)
| VArr (elems : list value)
| VObj (props : list (jsstring * value)).

(** Property keys: an identifier ([data.error]) or an index ([parts[0]]). *)
Inductive key : Type :=
| KName (name : jsstring)
| KIndex (i : nat).

(** The TypeErrors the handlers can run into. *)
Inductive type_error : Type :=
| TE_read_of_nullish (base : value) (k : key)
    (* reading a property of undefined or null *)
| TE_destructure_nullish (base : value) (name : jsstring)
    (* [const { name } = base] with base undefined or null *)
| TE_not_a_function (callee : jsstring)
    (* calling a property that is not callable; [callee] is the source
       text of the call's target, as the message quotes it *)
| TE_to_primitive
    (* an object whose own "toString" is not callable *).

(** What can be thrown and caught in a handler. *)
Inductive error : Type :=
| Error (message : jsstring)          (* [new Error(message)] *)
| TypeError (e : type_error)          (* raised by the runtime *)
| FetchError (message : jsstring)     (* a rejected [fetch] or [json()] *).

Inductive result (A : Type) : Type :=
| Ok (a : A)
| Throw (e : error).
Arguments Ok {A} a.
Arguments Throw {A} e.

(** The parts of the JavaScript engine that are not in the repository:
    how a Number prints and how TypeError messages are worded. *)
Class Engine : Type := {
  number_to_string : number -> jsstring;
  type_error_message : type_error -> jsstring
}.

Definition error_message `{Engine} (e : error) : jsstring :=
  match e with
  | Error m => m
  | TypeError t => type_error_message t
  | FetchError m => m
  end.

Definition number_of_nat (n : nat) : number :=
  match n with
  | O => S754_zero false
  | S _ => S754_finite false (Pos.of_nat n) 0
  end.

(** ToBoolean *)
Definition truthy (v : value) : bool :=
  match v with
  | VUndefined | VNull => false
  | VBool b => b
  | VNum (S754_zero _) | VNum S754_nan => false
  | VNum _ => true
  | VStr s => negb (eqb s [])
  | VArr _ | VObj _ => true
  end.

Definition nullish (v : value) : bool :=
  match v with
  | VUndefined | VNull => true
  | _ => false
  end.

(** [v === 0] *)
Definition strict_equals_zero (v : value) : bool :=
  match v with
  | VNum (S754_zero _) => true
  | _ => false
  end.

Fixpoint own_property (props : list (jsstring * value)) (name : jsstring)
  : option value :=
  match props with
  | [] => None
  | (k, v) :: rest => if eqb k name then Some v else own_property rest name
  end.

Definition has_own (props : list (jsstring * value)) (name : jsstring) : bool :=
  match own_property props name with
  | Some _ => true
  | None => false
  end.

(** Decimal spelling of an index, the property name [obj[i]] reads. *)
Definition index_name (i : nat) : jsstring :=
  js (NilEmpty.string_of_uint (Nat.to_uint i)).

Definition or_undefined (o : option value) : value :=
  match o with
  | Some v => v
  | None => VUndefined
  end.

(** Property read [base.name] / [base[i]].  The names the handlers read
    ([text], [error], [message], [candidates], [content], [parts], ...)
    exist on no prototype, so a name that is not an own property reads as
    [undefined]; [length] and indices are own properties of arrays and
    strings. *)
Definition get (base : value) (k : key) : result value :=
  match base with
  | VUndefined | VNull => Throw (TypeError (TE_read_of_nullish base k))
  | VBool _ | VNum _ => Ok VUndefined
  | VStr s =>
      match k with
      | KIndex i => Ok (match nth_error s i with
                        | Some c => VStr [c]
                        | None => VUndefined
                        end)
      | KName n => Ok (if eqb n (js "length")
                       then VNum (number_of_nat (List.length s))
                       else VUndefined)
      end
  | VArr l =>
      match k with
      | KIndex i => Ok (or_undefined (nth_error l i))
      | KName n => Ok (if eqb n (js "length")
                       then VNum (number_of_nat (List.length l))
                       else VUndefined)
      end
  | VObj props =>
      match k with
      | KIndex i => Ok (or_undefined (own_property props (index_name i)))
      | KName n => Ok (or_undefined (own_property props n))
      end
  end.

(** [const { name } = base] *)
Definition destructure (base : value) (name : jsstring) : result value :=
  match base with
  | VUndefined | VNull => Throw (TypeError (TE_destructure_nullish base name))
  | _ => get base (KName name)
  end.

(** ToString.  An array joins its elements with ",", printing [undefined]
    and [null] elements as the empty string.  A plain object prints as
    "[object Object]", unless it has an own "toString" property: coming
    from JSON that property is not callable, [valueOf] returns no
    primitive, and the conversion throws. *)
Fixpoint to_string `{Engine} (v : value) : result jsstring :=
  match v with
  | VUndefined => Ok (js "undefined")
  | VNull => Ok (js "null")
  | VBool true => Ok (js "true")
  | VBool false => Ok (js "false")
  | VNum n => Ok (number_to_string n)
  | VStr s => Ok s
  | VArr l =>
      let element (x : value) : result jsstring :=
        match x with
        | VUndefined | VNull => Ok []
        | _ => to_string x
        end in
      (fix join_elems (l : list value) : result jsstring :=
         match l with
         | [] => Ok []
         | x :: rest =>
             match element x with
             | Throw e => Throw e
             | Ok sx =>
                 match rest with
                 | [] => Ok sx
                 | _ :: _ =>
                     match join_elems rest with
                     | Throw e => Throw e
                     | Ok sr => Ok (sx ++ js "," ++ sr)
                     end
                 end
             end
         end) l
  | VObj props =>
      if has_own props (js "toString") then Throw (TypeError TE_to_primitive)
      else Ok (js "[object Object]")
  end.

(** [new Error(message)]: the message is ToString of the argument, and the
    inherited empty message when the argument is [undefined]. *)
Definition new_Error `{Engine} (message : value) : result error :=
  match message with
  | VUndefined => Ok (Error [])
  | _ => match to_string message with
         | Ok m => Ok (Error m)
         | Throw e => Throw e
         end
  end.

(** [recv.includes(' ')]-style call: a string searches for a substring, an
    array for an element equal to the string; nothing else that JSON can
    produce has a callable [includes]. *)
Definition call_includes (callee : jsstring) (recv : value) (search : jsstring)
  : result bool :=
  match recv with
  | VUndefined | VNull =>
      Throw (TypeError (TE_read_of_nullish recv (KName (js "includes"))))
  | VStr s => Ok (includes s search)
  | VArr l => Ok (existsb (fun x => match x with
                                    | VStr t => eqb t search
                                    | _ => false
                                    end) l)
  | _ => Throw (TypeError (TE_not_a_function callee))
  end.

(** [recv.trim()]: only strings have it. *)
Definition call_trim (callee : jsstring) (recv : value) : result jsstring :=
  match recv with
  | VUndefined | VNull =>
      Throw (TypeError (TE_read_of_nullish recv (KName (js "trim"))))
  | VStr s => Ok (trim s)
  | _ => Throw (TypeError (TE_not_a_function callee))
  end.

(** [JSON.stringify(v)], read as the JSON value that the produced text
    denotes, which is what the receiver parses.  A Number that is not finite
    is written [null] and negative zero is written [0]; an [undefined]
    array element is written [null] and an [undefined] property is left
    out; everything else is written as it is.  ([JSON.stringify(undefined)]
    itself produces no text: [VUndefined] stands for that.) *)
Fixpoint JSON_stringify (v : value) : value :=
  match v with
  | VNum (S754_zero _) => VNum (S754_zero false)
  | VNum (S754_finite _ _ _) => v
  | VNum _ => VNull
  | VArr l =>
      VArr (map (fun x => match x with
                          | VUndefined => VNull
                          | _ => JSON_stringify x
                          end) l)
  | VObj props =>
      VObj ((fix properties (ps : list (jsstring * value))
               : list (jsstring * value) :=
               match ps with
               | [] => []
               | (k, x) :: rest =>
                   match x with
                   | VUndefined => properties rest
                   | _ => (k, JSON_stringify x) :: properties rest
                   end
               end) props)
  | _ => v
  end.

(** The values that [JSON.stringify] writes as they are: no [undefined],
    no Number that is not finite, no negative zero, at any depth. *)
Fixpoint json_exact (v : value) : bool :=
  match v with
  | VUndefined => false
  | VNull | VBool _ | VStr _ => true
  | VNum (S754_zero s) => negb s
  | VNum (S754_finite _ _ _) => true
  | VNum _ => false
  | VArr l => forallb json_exact l
  | VObj props => forallb (fun kv => json_exact (snd kv)) props
  end.

(** Induction on values, through arrays and objects. *)
Section ValueInduction.
Variable P : value -> Prop.
Hypothesis P_undefined : P VUndefined.
Hypothesis P_null : P VNull.
Hypothesis P_bool : forall b, P (VBool b).
Hypothesis P_num : forall n, P (VNum n).
Hypothesis P_str : forall s, P (VStr s).
Hypothesis P_arr : forall l, Forall P l -> P (VArr l).
Hypothesis P_obj :
  forall props, Forall (fun kv => P (snd kv)) props -> P (VObj props).

Fixpoint value_induction (v : value) : P v :=
  match v with
  | VUndefined => P_undefined
  | VNull => P_null
  | VBool b => P_bool b
  | VNum n => P_num n
  | VStr s => P_str s
  | VArr l =>
      P_arr ((fix elements (l : list value) : Forall P l :=
                match l with
                | [] => Forall_nil P
                | x :: rest => Forall_cons x (value_induction x) (elements rest)
                end) l)
  | VObj props =>
      P_obj ((fix properties (ps : list (jsstring * value))
                : Forall (fun kv => P (snd kv)) ps :=
                match ps with
                | [] => Forall_nil _
                | kv :: rest =>
                    Forall_cons kv (value_induction (snd kv)) (properties rest)
                end) props)
  end.
End ValueInduction.

(** Object literals of the source. *)
Definition obj1 (k : string) (v : value) : value := VObj [(js k, v)].
Definition obj2 (k1 : string) (v1 : value) (k2 : string) (v2 : value) : value :=
  VObj [(js k1, v1); (js k2, v2)].

End Js.
Import Js.

(* ================================================================== *)
(** ** Effects: exceptions, the outbound call, the console *)

Module Effects.

(** The second argument of [fetch(url, {method, headers, body})].  [body]
    is the JSON value of the text that goes out. *)
Record fetch_request : Type := {
  url : jsstring;
  method : jsstring;
  headers : list (jsstring * jsstring);
  body : value
}.

(** What [await response.json()] settles with. *)
Inductive json_outcome : Type :=
| JsonResolved (data : value)
| JsonRejected (message : jsstring).

(** The fields of a node-fetch [Response] that the handlers read. *)
Record fetch_response : Type := {
  ok : bool;
  statusText : jsstring;
  json : json_outcome
}.

(** What [await fetch(...)] settles with. *)
Inductive fetch_outcome : Type :=
| Resolved (r : fetch_response)
| Rejected (message : jsstring).

(** The upstream API, as a stub that answers each outbound request. *)
Definition upstream := fetch_request -> fetch_outcome.

Inductive logged : Type :=
| LogValue (v : value)
| LogString (s : jsstring)
| LogError (e : error).

(** Observable effects of a handler, in the order they happen. *)
Inductive event : Type :=
| Fetched (rq : fetch_request)
| ConsoleError (label : jsstring) (arg : logged).

(** A computation reads the upstream stub, extends the trace of events and
    either returns or throws. *)
Definition M (A : Type) : Type :=
  upstream -> list event -> result A * list event.

Definition ret {A} (a : A) : M A := fun _ tr => (Ok a, tr).

Definition bind {A B} (m : M A) (k : A -> M B) : M B :=
  fun up tr =>
    match m up tr with
    | (Ok a, tr') => k a up tr'
    | (Throw e, tr') => (Throw e, tr')
    end.

Definition throw {A} (e : error) : M A := fun _ tr => (Throw e, tr).

Definition lift {A} (r : result A) : M A := fun _ tr => (r, tr).

(** [try { body } catch (error) { handler }] *)
Definition try_catch {A} (body : M A) (handler : error -> M A) : M A :=
  fun up tr =>
    match body up tr with
    | (Ok a, tr') => (Ok a, tr')
    | (Throw e, tr') => handler e up tr'
    end.

(** [await fetch(url, options)] *)
Definition fetch (rq : fetch_request) : M fetch_response :=
  fun up tr =>
    match up rq with
    | Resolved r => (Ok r, tr ++ [Fetched rq])
    | Rejected m => (Throw (FetchError m), tr ++ [Fetched rq])
    end.

(** [await response.json()] *)
Definition response_json (r : fetch_response) : M value :=
  match json r with
  | JsonResolved data => ret data
  | JsonRejected m => throw (FetchError m)
  end.

Definition console_error (label : jsstring) (arg : logged) : M unit :=
  fun _ tr => (Ok tt, tr ++ [ConsoleError label arg]).

Definition run {A} (m : M A) (up : upstream) : result A * list event :=
  m up [].

(** The outbound HTTP calls recorded in a trace. *)
Fixpoint outbound (tr : list event) : list fetch_request :=
  match tr with
  | [] => []
  | Fetched rq :: tr' => rq :: outbound tr'
  | ConsoleError _ _ :: tr' => outbound tr'
  end.

(** A computation that makes no outbound call, whatever else it does. *)
Definition quiet {A} (m : M A) : Prop :=
  forall up tr, outbound (snd (m up tr)) = outbound tr.

End Effects.
Import Effects.

Declare Scope js_scope.
Delimit Scope js_scope with js.
Notation "x <- m ;; k" := (bind m (fun x => k))
  (at level 61, m at next level, right associativity) : js_scope.
Notation "m ;; k" := (bind m (fun _ => k))
  (at level 61, right associativity) : js_scope.
Open Scope js_scope.

(* ================================================================== *)
(** ** The relay: configuration and the three handlers of [server.js] *)

Module Server.

(** The environment variables read at start-up. *)
Record process_env : Type := {
  env_GEMINI_API_KEY : option jsstring;
  env_TTS_API_KEY : option jsstring
}.

(** [process.env.X ? process.env.X.trim() : null]; [None] is [null]. *)
Definition load_key (x : option jsstring) : option jsstring :=
  match x with
  | Some s => if truthy (VStr s) then Some (trim s) else None
  | None => None
  end.

Record config : Type := {
  GEMINI_API_KEY : option jsstring;
  TTS_API_KEY : option jsstring
}.

Definition load_config (env : process_env) : config :=
  {| GEMINI_API_KEY := load_key (env_GEMINI_API_KEY env);
     TTS_API_KEY := load_key (env_TTS_API_KEY env) |}.

Definition key_value (k : option jsstring) : value :=
  match k with
  | Some s => VStr s
  | None => VNull
  end.

(** The key as a template substitution. *)
Definition key_text (k : option jsstring) : jsstring :=
  match k with
  | Some s => s
  | None => js "null"
  end.

(** What the handler sends: the status code and the JSON value of the
    response body. *)
Record http_response : Type := {
  status : nat;
  payload : value
}.

(** [res.status(code).json(v)]: Express sends [JSON.stringify(v)]. *)
Definition res_status_json (code : nat) (v : value) : http_response :=
  {| status := code; payload := JSON_stringify v |}.

(** [res.json(payload)], with Express's default status 200. *)
Definition res_json (v : value) : http_response := res_status_json 200 v.

Definition DQUOTE : jsstring := [34%N].

(** [fetch(url, { method: 'POST', headers: {'Content-Type':
    'application/json'}, body: JSON.stringify(v) })] *)
Definition post_json (u : jsstring) (v : value) : fetch_request :=
  {| url := u;
     method := js "POST";
     headers := [(js "Content-Type", js "application/json")];
     body := JSON_stringify v |}.

Definition gemini_url (k : option jsstring) : jsstring :=
  js "https://generativelanguage.googleapis.com/v1beta/models/gemini-1.5-flash-latest:generateContent?key="
  ++ key_text k.

Definition tts_url (k : option jsstring) : jsstring :=
  js "https://texttospeech.googleapis.com/v1/text:synthesize?key=" ++ key_text k.

(** [{ contents: [{ parts: [{ text: prompt }] }] }] *)
Definition gemini_body (prompt : jsstring) : value :=
  obj1 "contents" (VArr [obj1 "parts" (VArr [obj1 "text" (VStr prompt)])]).

Section Handlers.
Context `{Engine}.

(** The two instruction templates of [/translate], as functions of the
    substituted strings. *)
Definition single_word_template (text sourceLang targetLang : jsstring)
  : jsstring :=
  js "Translate the word " ++ DQUOTE ++ text ++ DQUOTE ++ js " from "
  ++ sourceLang ++ js " to " ++ targetLang
  ++ js ". Provide only the single translated word.".

Definition multi_word_template (text sourceLang targetLang : jsstring)
  : jsstring :=
  js "Translate the following " ++ sourceLang ++ js " text to " ++ targetLang
  ++ js ". Provide ONLY the translated text. Text: "
  ++ DQUOTE ++ text ++ DQUOTE.

(** The instruction of [/suggest-reply]. *)
Definition suggest_template (text language : jsstring) : jsstring :=
  js "I received a message in " ++ language ++ js " that says: "
  ++ DQUOTE ++ text ++ DQUOTE
  ++ js ". Suggest three short, common, and natural-sounding replies in "
  ++ language
  ++ js ". Provide ONLY the three replies, each on a new line. Do not add numbers, bullets, or any extra text.".

(** A template literal applies ToString to each substitution, left to
    right, and throws what the first failing conversion throws. *)
Definition single_word_prompt (text sourceLang targetLang : value)
  : result jsstring :=
  match to_string text with Throw e => Throw e | Ok t =>
  match to_string sourceLang with Throw e => Throw e | Ok s =>
  match to_string targetLang with Throw e => Throw e | Ok g =>
    Ok (single_word_template t s g)
  end end end.

Definition multi_word_prompt (text sourceLang targetLang : value)
  : result jsstring :=
  match to_string sourceLang with Throw e => Throw e | Ok s =>
  match to_string targetLang with Throw e => Throw e | Ok g =>
  match to_string text with Throw e => Throw e | Ok t =>
    Ok (multi_word_template t s g)
  end end end.

Definition suggest_prompt (text language : value) : result jsstring :=
  match to_string language with Throw e => Throw e | Ok l =>
  match to_string text with Throw e => Throw e | Ok t =>
    Ok (suggest_template t l)
  end end.

(** [data.candidates[0].content.parts[0].text] *)
Definition first_candidate_text (data : value) : result value :=
  match get data (KName (js "candidates")) with Throw e => Throw e | Ok cs =>
  match get cs (KIndex 0) with Throw e => Throw e | Ok c =>
  match get c (KName (js "content")) with Throw e => Throw e | Ok content =>
  match get content (KName (js "parts")) with Throw e => Throw e | Ok parts =>
  match get parts (KIndex 0) with Throw e => Throw e | Ok part =>
    get part (KName (js "text"))
  end end end end end.

(** [data.error ? data.error.message : `<prefix>${response.statusText}`] *)
Definition upstream_error_message (prefix : jsstring) (data : value)
    (response : fetch_response) : result value :=
  match get data (KName (js "error")) with Throw e => Throw e | Ok err =>
    if truthy err then get err (KName (js "message"))
    else Ok (VStr (prefix ++ statusText response))
  end.

(** [!data.candidates || data.candidates.length === 0] *)
Definition no_candidates (data : value) : result bool :=
  match get data (KName (js "candidates")) with Throw e => Throw e | Ok cs =>
    if negb (truthy cs) then Ok true
    else match get cs (KName (js "length")) with
         | Throw e => Throw e
         | Ok len => Ok (strict_equals_zero len)
         end
  end.

(** Lines 44-58 of [/translate]: what the handler does with the settled
    [response]. *)
Definition translate_on_response (response : fetch_response)
  : M http_response :=
  data <- response_json response ;;
  (if negb (ok response) then
     errorMessage <- lift (upstream_error_message
                             (js "API request failed: ") data response) ;;
     err <- lift (get data (KName (js "error"))) ;;
     console_error (js "Gemini API Error:") (LogValue err) ;;
     e <- lift (new_Error errorMessage) ;;
     throw e
   else ret tt) ;;
  none <- lift (no_candidates data) ;;
  (if (none : bool) then
     console_error (js "Invalid Gemini Response:") (LogValue data) ;;
     throw (Error (js "No translation candidate found in the API response."))
   else ret tt) ;;
  translatedText <- lift (first_candidate_text data) ;;
  trimmed <- lift (call_trim (js "translatedText.trim") translatedText) ;;
  ret (res_json (obj1 "translation" (VStr trimmed))).

(** Lines 60-63: the [catch] block of [/translate]. *)
Definition translate_catch (error : error) : M http_response :=
  console_error (js "Translation Error:") (LogString (error_message error)) ;;
  ret (res_status_json 500
         (obj2 "error" (VStr (js "Failed to translate text"))
               "details" (VStr (error_message error)))).

(** [app.post('/translate', ...)] *)
Definition translate (cfg : config) (req_body : value) : M http_response :=
  if negb (truthy (key_value (GEMINI_API_KEY cfg))) then
    ret (res_status_json 500
           (obj1 "error" (VStr (js "Gemini API key is not configured on the server."))))
  else
    try_catch
      (text <- lift (destructure req_body (js "text")) ;;
       sourceLang <- lift (destructure req_body (js "sourceLang")) ;;
       targetLang <- lift (destructure req_body (js "targetLang")) ;;
       if negb (truthy text) || negb (truthy sourceLang)
          || negb (truthy targetLang)
       then ret (res_status_json 400
                   (obj1 "error" (VStr (js "Missing required fields"))))
       else
         has_space <- lift (call_includes (js "text.includes") text (js " ")) ;;
         let isSingleWord := negb has_space in
         prompt <- lift (if isSingleWord
                         then single_word_prompt text sourceLang targetLang
                         else multi_word_prompt text sourceLang targetLang) ;;
         let apiUrl := gemini_url (GEMINI_API_KEY cfg) in
         response <- fetch (post_json apiUrl (gemini_body prompt)) ;;
         translate_on_response response)
      translate_catch.

(** [line => line.trim() !== ''] *)
Definition non_blank (line : jsstring) : bool := negb (eqb (trim line) []).

(** [suggestionsText.trim().split('\n').filter(line => line.trim() !== '')] *)
Definition suggestion_lines (suggestionsText : jsstring) : list jsstring :=
  filter non_blank (split LF (trim suggestionsText)).

(** Lines 83-87 of [/suggest-reply]. *)
Definition suggest_on_response (response : fetch_response)
  : M http_response :=
  (if negb (ok response)
   then throw (Error (js "API request failed"))
   else ret tt) ;;
  data <- response_json response ;;
  suggestionsText <- lift (first_candidate_text data) ;;
  trimmed <- lift (call_trim (js "suggestionsText.trim") suggestionsText) ;;
  let suggestions := filter non_blank (split LF trimmed) in
  ret (res_json (obj1 "suggestions" (VArr (map VStr suggestions)))).

(** Lines 88-91: the [catch] block of [/suggest-reply]. *)
Definition suggest_catch (error : error) : M http_response :=
  console_error (js "Suggestion Error:") (LogError error) ;;
  ret (res_status_json 500
         (obj1 "error" (VStr (js "Failed to generate suggestions")))).

(** [app.post('/suggest-reply', ...)] *)
Definition suggest_reply (cfg : config) (req_body : value) : M http_response :=
  if negb (truthy (key_value (GEMINI_API_KEY cfg))) then
    ret (res_status_json 500
           (obj1 "error" (VStr (js "Gemini API key is not configured on the server."))))
  else
    try_catch
      (text <- lift (destructure req_body (js "text")) ;;
       language <- lift (destructure req_body (js "language")) ;;
       if negb (truthy text) || negb (truthy language)
       then ret (res_status_json 400
                   (obj1 "error" (VStr (js "Missing required fields"))))
       else
         prompt <- lift (suggest_prompt text language) ;;
         let apiUrl := gemini_url (GEMINI_API_KEY cfg) in
         response <- fetch (post_json apiUrl (gemini_body prompt)) ;;
         suggest_on_response response)
      suggest_catch.

(** The [requestBody] of [/synthesize-speech]. *)
Definition tts_request_body (text langCode : value) : value :=
  VObj [ (js "input", obj1 "text" text);
         (js "voice", obj2 "languageCode" langCode
                           "ssmlGender" (VStr (js "NEUTRAL")));
         (js "audioConfig", obj1 "audioEncoding" (VStr (js "MP3"))) ].

(** Lines 115-120 of [/synthesize-speech]. *)
Definition synthesize_on_response (response : fetch_response)
  : M http_response :=
  data <- response_json response ;;
  (if negb (ok response) then
     errorMessage <- lift (upstream_error_message
                             (js "TTS API request failed: ") data response) ;;
     e <- lift (new_Error errorMessage) ;;
     throw e
   else ret tt) ;;
  ret (res_json data).

(** Lines 121-124: the [catch] block of [/synthesize-speech]. *)
Definition synthesize_catch (error : error) : M http_response :=
  console_error (js "Speech Synthesis Error:")
                (LogString (error_message error)) ;;
  ret (res_status_json 500
         (obj2 "error" (VStr (js "Failed to synthesize speech"))
               "details" (VStr (error_message error)))).

(** [app.post('/synthesize-speech', ...)] *)
Definition synthesize_speech (cfg : config) (req_body : value)
  : M http_response :=
  if negb (truthy (key_value (TTS_API_KEY cfg))) then
    ret (res_status_json 500
           (obj1 "error" (VStr (js "TTS API key is not configured on the server."))))
  else
    try_catch
      (text <- lift (destructure req_body (js "text")) ;;
       langCode <- lift (destructure req_body (js "langCode")) ;;
       if negb (truthy text) || negb (truthy langCode)
       then ret (res_status_json 400
                   (obj1 "error" (VStr (js "Missing text or language code"))))
       else
         let ttsApiUrl := tts_url (TTS_API_KEY cfg) in
         let requestBody := tts_request_body text langCode in
         response <- fetch (post_json ttsApiUrl requestBody) ;;
         synthesize_on_response response)
      synthesize_catch.

End Handlers.

End Server.
Import Server.

(* ================================================================== *)
(** ** The routes, and what each handler checks *)

Module Routes.

Inductive endpoint : Type :=
| Translate
| SuggestReply
| SynthesizeSpeech.

(** [app.post(path, handler)] *)
Definition path (ep : endpoint) : jsstring :=
  match ep with
  | Translate => js "/translate"
  | SuggestReply => js "/suggest-reply"
  | SynthesizeSpeech => js "/synthesize-speech"
  end.

Definition handler `{Engine} (ep : endpoint) : config -> value -> M http_response :=
  match ep with
  | Translate => translate
  | SuggestReply => suggest_reply
  | SynthesizeSpeech => synthesize_speech
  end.

(** The credential the handler tests on entry. *)
Definition credential (ep : endpoint) (cfg : config) : option jsstring :=
  match ep with
  | Translate | SuggestReply => GEMINI_API_KEY cfg
  | SynthesizeSpeech => TTS_API_KEY cfg
  end.

(** The environment variable that credential is loaded from. *)
Definition env_credential (ep : endpoint) (env : process_env) : option jsstring :=
  match ep with
  | Translate | SuggestReply => env_GEMINI_API_KEY env
  | SynthesizeSpeech => env_TTS_API_KEY env
  end.

(** The fields the handler destructures from the body and tests. *)
Definition required_fields (ep : endpoint) : list jsstring :=
  match ep with
  | Translate => [js "text"; js "sourceLang"; js "targetLang"]
  | SuggestReply => [js "text"; js "language"]
  | SynthesizeSpeech => [js "text"; js "langCode"]
  end.

Definition missing_fields_error (ep : endpoint) : jsstring :=
  match ep with
  | Translate | SuggestReply => js "Missing required fields"
  | SynthesizeSpeech => js "Missing text or language code"
  end.

Definition not_configured_error (ep : endpoint) : jsstring :=
  match ep with
  | Translate | SuggestReply =>
      js "Gemini API key is not configured on the server."
  | SynthesizeSpeech => js "TTS API key is not configured on the server."
  end.

(** The HTTP 400 response of an endpoint. *)
Definition bad_request (ep : endpoint) : http_response :=
  res_status_json 400 (obj1 "error" (VStr (missing_fields_error ep))).

(** The HTTP 500 response of an endpoint whose credential is not set. *)
Definition not_configured (ep : endpoint) : http_response :=
  res_status_json 500 (obj1 "error" (VStr (not_configured_error ep))).

(** A field of a JSON body is missing, or present and the empty string. *)
Definition missing_or_empty (props : list (jsstring * value)) (name : jsstring)
  : Prop :=
  own_property props name = None \/ own_property props name = Some (VStr []).

(** A field of a JSON body is a non-empty string. *)
Definition string_field (props : list (jsstring * value)) (name : jsstring)
    (s : jsstring) : Prop :=
  own_property props name = Some (VStr s) /\ s <> [].

(** The outbound request of [/translate] when its three fields are the
    strings [text], [sourceLang], [targetLang] (lines 31-42). *)
Definition translate_request (cfg : config) (text sourceLang targetLang : jsstring)
  : fetch_request :=
  let isSingleWord := negb (includes text (js " ")) in
  let prompt := if isSingleWord
                then single_word_template text sourceLang targetLang
                else multi_word_template text sourceLang targetLang in
  post_json (gemini_url (GEMINI_API_KEY cfg)) (gemini_body prompt).

(** The outbound request of [/suggest-reply] for string fields
    (lines 76-82). *)
Definition suggest_request (cfg : config) (text language : jsstring)
  : fetch_request :=
  post_json (gemini_url (GEMINI_API_KEY cfg))
            (gemini_body (suggest_template text language)).

(** The outbound request of [/synthesize-speech] (lines 104-114). *)
Definition tts_request (cfg : config) (text langCode : value) : fetch_request :=
  post_json (tts_url (TTS_API_KEY cfg)) (tts_request_body text langCode).

(** The failure responses of the three [catch] blocks. *)
Definition translate_failure (details : jsstring) : http_response :=
  res_status_json 500
    (obj2 "error" (VStr (js "Failed to translate text")) "details" (VStr details)).

Definition suggest_failure : http_response :=
  res_status_json 500 (obj1 "error" (VStr (js "Failed to generate suggestions"))).

Definition synthesize_failure (details : jsstring) : http_response :=
  res_status_json 500
    (obj2 "error" (VStr (js "Failed to synthesize speech")) "details" (VStr details)).

(** What the [catch] block of an endpoint answers for an error with message
    [details]; [/suggest-reply] ignores the message. *)
Definition failure (ep : endpoint) (details : jsstring) : http_response :=
  match ep with
  | Translate => translate_failure details
  | SuggestReply => suggest_failure
  | SynthesizeSpeech => synthesize_failure details
  end.

(** The specification's reading of the [/suggest-reply] result: the
    upstream text split on line breaks, blank lines discarded. *)
Definition spec_suggestions (upstream_text : jsstring) : list jsstring :=
  filter non_blank (split LF upstream_text).

End Routes.
Import Routes.

(* ================================================================== *)
(** ** Stubs and sample data for the examples *)

Module Samples.

Definition decimal (n : N) : jsstring :=
  js (NilEmpty.string_of_uint (N.to_uint n)).

(** Number printing for the examples: as JavaScript prints on zeros, NaN,
    infinities and integers of magnitude below 2^53.  No example prints
    any other Number; they come out as "NaN" here. *)
Definition sample_number_to_string (n : number) : jsstring :=
  match n with
  | S754_zero _ => js "0"
  | S754_nan => js "NaN"
  | S754_infinity false => js "Infinity"
  | S754_infinity true => js "-Infinity"
  | S754_finite s m e =>
      if (0 <=? e)%Z && (Z.pos m * 2 ^ e <? 2 ^ 53)%Z
      then (if s then js "-" else []) ++ decimal (Z.to_N (Z.pos m * 2 ^ e))
      else js "NaN"
  end.

Definition key_source (k : key) : jsstring :=
  match k with
  | KName n => n
  | KIndex i => index_name i
  end.

Definition nullish_source (v : value) : jsstring :=
  match v with
  | VNull => js "null"
  | _ => js "undefined"
  end.

(** V8's wording of the TypeErrors (Node.js 16 and later). *)
Definition v8_type_error_message (t : type_error) : jsstring :=
  match t with
  | TE_read_of_nullish base k =>
      js "Cannot read properties of " ++ nullish_source base
      ++ js " (reading '" ++ key_source k ++ js "')"
  | TE_destructure_nullish base name =>
      js "Cannot destructure property '" ++ name
      ++ js "' of 'req.body' as it is " ++ nullish_source base ++ js "."
  | TE_not_a_function callee => callee ++ js " is not a function"
  | TE_to_primitive => js "Cannot convert object to primitive value"
  end.

Definition sample_engine : Engine :=
  {| number_to_string := sample_number_to_string;
     type_error_message := v8_type_error_message |}.

(** A stub upstream that settles every call the same way. *)
Definition stub (o : fetch_outcome) : upstream := fun _ => o.

Definition ok_response (data : value) : fetch_response :=
  {| ok := true; statusText := js "OK"; json := JsonResolved data |}.

Definition error_response (status_text : jsstring) (data : value)
  : fetch_response :=
  {| ok := false; statusText := status_text; json := JsonResolved data |}.

(** [{ candidates: [{ content: { parts: [{ text }] } }] }] *)
Definition gemini_reply (text : jsstring) : value :=
  obj1 "candidates"
    (VArr [obj1 "content" (obj1 "parts" (VArr [obj1 "text" (VStr text)]))]).

(** [{ error: { message } }] *)
Definition error_payload (message : jsstring) : value :=
  obj1 "error" (obj1 "message" (VStr message)).

Definition no_keys : process_env :=
  {| env_GEMINI_API_KEY := None; env_TTS_API_KEY := None |}.

Definition both_keys : process_env :=
  {| env_GEMINI_API_KEY := Some (js "gemini-key");
     env_TTS_API_KEY := Some (js "tts-key") |}.

Definition translate_body (text sourceLang targetLang : jsstring)
  : list (jsstring * value) :=
  [(js "text", VStr text); (js "sourceLang", VStr sourceLang);
   (js "targetLang", VStr targetLang)].

Definition suggest_body (text language : jsstring) : list (jsstring * value) :=
  [(js "text", VStr text); (js "language", VStr language)].

Definition speech_body (text langCode : jsstring) : list (jsstring * value) :=
  [(js "text", VStr text); (js "langCode", VStr langCode)].

(** "Hi\n\nThanks\nSee you" *)
Definition hi_thanks : jsstring :=
  js "Hi" ++ [LF; LF] ++ js "Thanks" ++ [LF] ++ js "See you".

(** "a\n  b  \nc" *)
Definition padded_lines : jsstring :=
  js "a" ++ [LF] ++ js "  b  " ++ [LF] ++ js "c".

(** " a\nb" *)
Definition leading_space : jsstring := js " a" ++ [LF] ++ js "b".

End Samples.
Import Samples.

(* ================================================================== *)
(** ** Proof steps shared by the handler lemmas *)

(** Unfolds a handler down to the monad's functions. *)
Ltac unfold_handler :=
  unfold handler, translate, suggest_reply, synthesize_speech, run,
    try_catch, bind, lift, ret, throw, destructure, get.

(** Case analysis on the innermost scrutinee of the goal. *)
Ltac break_match :=
  match goal with
  | |- context [match ?x with _ => _ end] =>
      lazymatch x with
      | context [match _ with _ => _ end] => fail
      | _ => destruct x
      end
  end.

(** Case analysis on the innermost scrutinee, keeping its equation. *)
Ltac break_match_eqn :=
  match goal with
  | |- context [match ?x with _ => _ end] =>
      lazymatch x with
      | context [match _ with _ => _ end] => fail
      | _ => destruct x eqn:?
      end
  end.

(** Unfolds a handler and everything it is made of, down to pure calls. *)
Ltac unfold_all :=
  unfold handler, translate, suggest_reply, synthesize_speech,
    translate_on_response, suggest_on_response, synthesize_on_response,
    translate_catch, suggest_catch, synthesize_catch,
    run, try_catch, fetch, response_json, console_error,
    bind, lift, ret, throw;
  cbn beta iota.

(* ================================================================== *)
(** ** Facts about the string operations *)

Module StringFacts.

Lemma eqb_eq (a b : jsstring) : eqb a b = true <-> a = b.
Proof.
  revert b; induction a as [|x a IH]; intros [|y b]; simpl;
    try (split; [discriminate | discriminate]); try tauto.
  rewrite andb_true_iff, N.eqb_eq, IH.
  split; [intros [-> ->]; reflexivity | intros E; inversion E; auto].
Qed.

Lemma eqb_nil (s : jsstring) : eqb s [] = true <-> s = [].
Proof. apply eqb_eq. Qed.

Lemma truthy_str (s : jsstring) : truthy (VStr s) = true <-> s <> [].
Proof.
  simpl. rewrite negb_true_iff. destruct s as [|c s]; simpl.
  - split; [discriminate | intros F; now elim F].
  - split; [discriminate | reflexivity].
Qed.

(** Searching for a one-unit string is membership of that unit. *)
Lemma includes_unit (s : jsstring) (c : code_unit) :
  includes s [c] = true <-> In c s.
Proof.
  induction s as [|x s IH]; simpl.
  - split; [discriminate | tauto].
  - rewrite orb_true_iff, andb_true_r, N.eqb_eq, IH.
    split; intros [E | E]; auto.
Qed.

Lemma drop_while_decompose (p : code_unit -> bool) (s : jsstring) :
  exists pre, s = pre ++ drop_while p s /\ forallb p pre = true.
Proof.
  induction s as [|c s [pre [E F]]]; simpl.
  - exists []. auto.
  - destruct (p c) eqn:Pc.
    + exists (c :: pre). simpl. rewrite Pc, F. split; [now f_equal | reflexivity].
    + exists []. auto.
Qed.

Lemma drop_while_head (p : code_unit -> bool) (s : jsstring) c r :
  drop_while p s = c :: r -> p c = false.
Proof.
  induction s as [|x s IH]; simpl; [discriminate|].
  destruct (p x) eqn:Px; [exact IH|].
  intros E; inversion E; subst; exact Px.
Qed.

Lemma drop_while_fixed (p : code_unit -> bool) (s : jsstring) :
  (forall c r, s = c :: r -> p c = false) -> drop_while p s = s.
Proof.
  destruct s as [|c s]; simpl; [reflexivity|].
  intros F. now rewrite (F c s eq_refl).
Qed.

Lemma forallb_rev (p : code_unit -> bool) (l : jsstring) :
  forallb p l = true -> forallb p (rev l) = true.
Proof.
  rewrite !forallb_forall. intros F x Hx. apply F. now apply in_rev.
Qed.

Lemma trimEnd_decompose (s : jsstring) :
  exists post, s = trimEnd s ++ post /\ forallb is_white_space post = true.
Proof.
  unfold trimEnd.
  destruct (drop_while_decompose is_white_space (rev s)) as [pre [E F]].
  exists (rev pre). split; [|now apply forallb_rev].
  rewrite <- rev_app_distr, <- E. now rewrite rev_involutive.
Qed.

(** [trim] removes a run of white space at each end, and nothing else. *)
Lemma trim_decompose (s : jsstring) :
  exists pre post,
    s = pre ++ trim s ++ post
    /\ forallb is_white_space pre = true
    /\ forallb is_white_space post = true.
Proof.
  unfold trim, trimStart.
  destruct (drop_while_decompose is_white_space s) as [pre [E F]].
  destruct (trimEnd_decompose (drop_while is_white_space s)) as [post [E' F']].
  exists pre, post. repeat split; auto.
  now rewrite <- E'.
Qed.

(** What [trim] returns does not start with white space ... *)
Lemma trim_first (s : jsstring) c r :
  trim s = c :: r -> is_white_space c = false.
Proof.
  unfold trim, trimStart. intros E.
  destruct (trimEnd_decompose (drop_while is_white_space s)) as [post [E' _]].
  rewrite E in E'. simpl in E'.
  exact (drop_while_head _ _ E').
Qed.

(** ... and does not end with white space. *)
Lemma trim_last (s : jsstring) c r :
  trim s = r ++ [c] -> is_white_space c = false.
Proof.
  unfold trim, trimEnd. intros E.
  apply (f_equal (@rev code_unit)) in E.
  rewrite rev_involutive, rev_app_distr in E. simpl in E.
  exact (drop_while_head _ _ E).
Qed.

(** A string with no white space at either end is left as it is. *)
Lemma trim_fixed (s : jsstring) :
  (forall c r, s = c :: r -> is_white_space c = false) ->
  (forall c r, s = r ++ [c] -> is_white_space c = false) ->
  trim s = s.
Proof.
  intros Hfirst Hlast. unfold trim, trimStart, trimEnd.
  rewrite (drop_while_fixed _ Hfirst).
  rewrite drop_while_fixed; [apply rev_involutive|].
  intros c r E. apply (Hlast c (rev r)).
  rewrite <- (rev_involutive s), E. reflexivity.
Qed.

Lemma trim_idempotent (s : jsstring) : trim (trim s) = trim s.
Proof.
  apply trim_fixed; intros c r E; [eapply trim_first | eapply trim_last]; eauto.
Qed.

Lemma split_not_nil (sep : code_unit) (s : jsstring) : split sep s <> [].
Proof.
  destruct s as [|c s]; simpl; [discriminate|].
  destruct (N.eqb c sep); [discriminate|].
  destruct (split sep s); discriminate.
Qed.

(** No piece of a split contains the separator. *)
Lemma split_no_sep (sep : code_unit) (s : jsstring) :
  Forall (fun piece => ~ In sep piece) (split sep s).
Proof.
  induction s as [|c s IH]; simpl.
  - constructor; [tauto | constructor].
  - destruct (N.eqb c sep) eqn:Ec.
    + constructor; [tauto | exact IH].
    + assert (c <> sep) as Hc
        by (intros ->; rewrite N.eqb_refl in Ec; discriminate).
      destruct (split sep s) as [|piece rest].
      * constructor; [|constructor]. simpl. intuition congruence.
      * inversion IH; subst. constructor; auto.
        simpl. intuition congruence.
Qed.

(** Joining the pieces with the separator gives the string back. *)
Lemma join_split (sep : code_unit) (s : jsstring) :
  join [sep] (split sep s) = s.
Proof.
  induction s as [|c s IH]; simpl; [reflexivity|].
  destruct (N.eqb c sep) eqn:Ec.
  - apply N.eqb_eq in Ec; subst c.
    pose proof (split_not_nil sep s) as NE.
    destruct (split sep s) as [|piece rest]; [now elim NE|].
    simpl in *. now rewrite IH.
  - pose proof (split_not_nil sep s) as NE.
    destruct (split sep s) as [|piece rest]; [now elim NE|].
    destruct rest as [|piece' rest]; simpl in *; now rewrite <- IH.
Qed.

Lemma split_no_sep_piece (sep : code_unit) (x : jsstring) :
  ~ In sep x -> split sep x = [x].
Proof.
  induction x as [|c x IH]; simpl; [reflexivity|].
  intros NI. destruct (N.eqb c sep) eqn:Ec.
  - apply N.eqb_eq in Ec. tauto.
  - rewrite IH by tauto. reflexivity.
Qed.

Lemma split_app (sep : code_unit) (x r : jsstring) :
  ~ In sep x -> split sep (x ++ sep :: r) = x :: split sep r.
Proof.
  induction x as [|c x IH]; simpl.
  - now rewrite N.eqb_refl.
  - intros NI. destruct (N.eqb c sep) eqn:Ec.
    + apply N.eqb_eq in Ec. tauto.
    + rewrite IH by tauto. reflexivity.
Qed.

(** Splitting a text made of separator-free lines gives those lines. *)
Lemma split_join (sep : code_unit) (l : list jsstring) :
  l <> [] ->
  Forall (fun piece => ~ In sep piece) l ->
  split sep (join [sep] l) = l.
Proof.
  induction l as [|x l IH]; [congruence|].
  intros _ F. inversion F as [|? ? Hx Hl]; subst.
  destruct l as [|y l].
  - simpl. now apply split_no_sep_piece.
  - change (join [sep] (x :: y :: l)) with (x ++ sep :: join [sep] (y :: l)).
    rewrite split_app by exact Hx.
    rewrite IH; [reflexivity | discriminate | exact Hl].
Qed.

(** The two [/translate] templates never produce the same prompt. *)
Lemma templates_differ (t s g t' s' g' : jsstring) :
  multi_word_template t s g <> single_word_template t' s' g'.
Proof.
  unfold multi_word_template, single_word_template. intros E.
  apply (f_equal (fun l => nth_error l 14)) in E.
  vm_compute in E. discriminate.
Qed.

End StringFacts.
Import StringFacts.

(* ================================================================== *)
(** ** Running the handlers *)

Module HandlerFacts.

Section WithEngine.
Context `{Engine}.

Lemma credential_load (ep : endpoint) (env : process_env) :
  credential ep (load_config env) = load_key (env_credential ep env).
Proof. destruct ep; reflexivity. Qed.

(** With the credential not set, a handler answers before it looks at
    the request and has no effect. *)
Lemma run_not_configured (ep : endpoint) (cfg : config) (req_body : value)
    (up : upstream) :
  truthy (key_value (credential ep cfg)) = false ->
  run (handler ep cfg req_body) up = (Ok (not_configured ep), []).
Proof.
  intros K. destruct ep; simpl in K; unfold_handler; rewrite K; reflexivity.
Qed.

Lemma missing_or_empty_falsy (props : list (jsstring * value)) (name : jsstring) :
  missing_or_empty props name ->
  truthy (or_undefined (own_property props name)) = false.
Proof. intros [E | E]; rewrite E; reflexivity. Qed.

(** With the credential set, a JSON body that lacks a required field is
    answered 400 with no effect. *)
Lemma run_missing_field (ep : endpoint) (cfg : config)
    (props : list (jsstring * value)) (up : upstream) :
  truthy (key_value (credential ep cfg)) = true ->
  (exists name, In name (required_fields ep) /\ missing_or_empty props name) ->
  run (handler ep cfg (VObj props)) up = (Ok (bad_request ep), []).
Proof.
  intros K [name [Hin Hmiss]]. apply missing_or_empty_falsy in Hmiss.
  destruct ep; simpl in K, Hin; unfold_handler; rewrite K; cbn beta iota;
    repeat (destruct Hin as [<- | Hin]; [rewrite Hmiss | ]);
    try contradiction; cbn [negb orb];
    rewrite ?orb_true_r; reflexivity.
Qed.

(** What [JSON.stringify] writes as it is. *)
Lemma JSON_stringify_exact (v : value) :
  json_exact v = true -> JSON_stringify v = v.
Proof.
  induction v as [ | | b | n | s | l IH | props IH] using value_induction;
    simpl; try reflexivity; try discriminate.
  - destruct n as [[|] | | | sg m e]; simpl; try discriminate; reflexivity.
  - intros E. f_equal.
    induction IH as [|x l Hx _ IHl]; simpl in *; [reflexivity|].
    apply andb_true_iff in E. destruct E as [Ex El].
    rewrite (IHl El). f_equal.
    destruct x; try discriminate; now apply Hx.
  - intros E. f_equal.
    induction IH as [|[k x] ps Hx _ IHps]; simpl in *; [reflexivity|].
    apply andb_true_iff in E. destruct E as [Ex Eps].
    rewrite (IHps Eps).
    destruct x; try discriminate; now rewrite (Hx Ex).
Qed.

Lemma JSON_stringify_strings (l : list jsstring) :
  JSON_stringify (VArr (map VStr l)) = VArr (map VStr l).
Proof.
  apply JSON_stringify_exact. simpl.
  induction l as [|x l IH]; simpl; auto.
Qed.

(** A list of strings is sent as it is. *)
Lemma res_json_suggestions (l : list jsstring) :
  res_json (obj1 "suggestions" (VArr (map VStr l)))
  = {| status := 200; payload := obj1 "suggestions" (VArr (map VStr l)) |}.
Proof.
  unfold res_json, res_status_json, obj1. f_equal.
  change (JSON_stringify (VObj [(js "suggestions", VArr (map VStr l))]))
    with (VObj [(js "suggestions", JSON_stringify (VArr (map VStr l)))]).
  now rewrite JSON_stringify_strings.
Qed.

Lemma try_catch_ext {A} (b1 b2 : M A) (h : error -> M A) up tr :
  b1 up tr = b2 up tr -> try_catch b1 h up tr = try_catch b2 h up tr.
Proof. unfold try_catch. now intros ->. Qed.

(** A settled [fetch] hands its response to the rest of the [try] block,
    and a rejected one goes to the [catch] block. *)
Lemma try_fetch_resolved {A} (rq : fetch_request) (r : fetch_response)
    (k : fetch_response -> M A) (h : error -> M A) up tr :
  up rq = Resolved r ->
  try_catch (response <- fetch rq ;; k response) h up tr
  = try_catch (k r) h up (tr ++ [Fetched rq]).
Proof. intros E. unfold try_catch, bind, fetch. now rewrite E. Qed.

Lemma try_fetch_rejected {A} (rq : fetch_request) (m : jsstring)
    (k : fetch_response -> M A) (h : error -> M A) up tr :
  up rq = Rejected m ->
  try_catch (response <- fetch rq ;; k response) h up tr
  = h (FetchError m) up (tr ++ [Fetched rq]).
Proof. intros E. unfold try_catch, bind, fetch. now rewrite E. Qed.

(** A valid [/translate] request reaches the outbound call. *)
Lemma run_translate_valid (cfg : config) (props : list (jsstring * value))
    (t s g : jsstring) (up : upstream) :
  truthy (key_value (GEMINI_API_KEY cfg)) = true ->
  string_field props (js "text") t ->
  string_field props (js "sourceLang") s ->
  string_field props (js "targetLang") g ->
  run (translate cfg (VObj props)) up
  = try_catch (response <- fetch (translate_request cfg t s g) ;;
               translate_on_response response)
              translate_catch up [].
Proof.
  intros K [Ht Nt] [Hs Ns] [Hg Ng].
  apply truthy_str in Nt, Ns, Ng.
  unfold translate, run. rewrite K. cbn [negb].
  apply try_catch_ext.
  unfold bind at 1 2 3, lift, destructure, get.
  rewrite Ht, Hs, Hg. cbn [or_undefined].
  rewrite Nt, Ns, Ng. cbn [negb orb].
  unfold translate_request, bind at 1 2, lift, call_includes.
  destruct (includes t (js " ")); reflexivity.
Qed.

(** A valid [/suggest-reply] request reaches the outbound call. *)
Lemma run_suggest_valid (cfg : config) (props : list (jsstring * value))
    (t l : jsstring) (up : upstream) :
  truthy (key_value (GEMINI_API_KEY cfg)) = true ->
  string_field props (js "text") t ->
  string_field props (js "language") l ->
  run (suggest_reply cfg (VObj props)) up
  = try_catch (response <- fetch (suggest_request cfg t l) ;;
               suggest_on_response response)
              suggest_catch up [].
Proof.
  intros K [Ht Nt] [Hl Nl].
  apply truthy_str in Nt, Nl.
  unfold suggest_reply, run. rewrite K. cbn [negb].
  apply try_catch_ext.
  unfold bind at 1 2, lift, destructure, get.
  rewrite Ht, Hl. cbn [or_undefined].
  rewrite Nt, Nl. reflexivity.
Qed.

(** A [/synthesize-speech] request with both fields truthy reaches the
    outbound call. *)
Lemma run_synthesize_valid (cfg : config) (req_body text langCode : value)
    (up : upstream) :
  truthy (key_value (TTS_API_KEY cfg)) = true ->
  destructure req_body (js "text") = Ok text ->
  destructure req_body (js "langCode") = Ok langCode ->
  truthy text = true ->
  truthy langCode = true ->
  run (synthesize_speech cfg req_body) up
  = try_catch (response <- fetch (tts_request cfg text langCode) ;;
               synthesize_on_response response)
              synthesize_catch up [].
Proof.
  intros K Ht Hl Nt Nl.
  unfold synthesize_speech, run. rewrite K. cbn [negb].
  apply try_catch_ext.
  unfold bind at 1 2, lift.
  rewrite Ht, Hl, Nt, Nl. reflexivity.
Qed.

Lemma outbound_app (a b : list event) :
  outbound (a ++ b) = outbound a ++ outbound b.
Proof.
  induction a as [|[rq | label arg] a IH]; simpl; now rewrite ?IH.
Qed.

Lemma outbound_console (tr : list event) label arg :
  outbound (tr ++ [ConsoleError label arg]) = outbound tr.
Proof. rewrite outbound_app. simpl. apply app_nil_r. Qed.

Lemma outbound_fetched (tr : list event) rq :
  outbound (tr ++ [Fetched rq]) = outbound tr ++ [rq].
Proof. now rewrite outbound_app. Qed.

(** An array with a first element passes the candidate check. *)
Lemma no_candidates_array (data c : value) (cs : list value) :
  get data (KName (js "candidates")) = Ok (VArr (c :: cs)) ->
  no_candidates data = Ok false.
Proof. intros E. unfold no_candidates. rewrite E. reflexivity. Qed.

(** A payload without candidates, or with an empty array of them, fails
    the candidate check. *)
Lemma no_candidates_missing (dprops : list (jsstring * value)) :
  own_property dprops (js "candidates") = None
  \/ own_property dprops (js "candidates") = Some (VArr []) ->
  no_candidates (VObj dprops) = Ok true.
Proof.
  intros [E | E]; unfold no_candidates, get; rewrite E; reflexivity.
Qed.

(** [/translate], upstream success with a first candidate's text. *)
Lemma translate_on_success (r : fetch_response) (data : value) (t : jsstring)
    up tr :
  ok r = true ->
  json r = JsonResolved data ->
  no_candidates data = Ok false ->
  first_candidate_text data = Ok (VStr t) ->
  try_catch (translate_on_response r) translate_catch up tr
  = (Ok (res_json (obj1 "translation" (VStr (trim t)))), tr).
Proof.
  intros Hok Hj Hn Ht.
  unfold try_catch, translate_on_response, response_json, bind, lift, ret.
  rewrite Hj, Hok, Hn, Ht. reflexivity.
Qed.

(** [/translate], upstream success without a candidate. *)
Lemma translate_on_no_candidate (r : fetch_response) (data : value) up tr :
  ok r = true ->
  json r = JsonResolved data ->
  no_candidates data = Ok true ->
  fst (try_catch (translate_on_response r) translate_catch up tr)
  = Ok (translate_failure
          (js "No translation candidate found in the API response.")).
Proof.
  intros Hok Hj Hn.
  unfold try_catch, translate_on_response, response_json, bind, lift, ret.
  rewrite Hj, Hok, Hn. reflexivity.
Qed.

(** [/translate], non-success status: the thrown error's message is the
    detail. *)
Lemma translate_on_failure (r : fetch_response) (data v : value) (e : error)
    up tr :
  ok r = false ->
  json r = JsonResolved data ->
  upstream_error_message (js "API request failed: ") data r = Ok v ->
  new_Error v = Ok e ->
  fst (try_catch (translate_on_response r) translate_catch up tr)
  = Ok (translate_failure (error_message e)).
Proof.
  intros Hok Hj Hm He.
  assert (exists err, get data (KName (js "error")) = Ok err) as [err Herr].
  { unfold upstream_error_message in Hm.
    destruct (get data (KName (js "error"))); [eauto | discriminate]. }
  unfold try_catch, translate_on_response, response_json, bind, lift, ret,
    throw, console_error.
  rewrite Hj, Hok. cbn [negb]. rewrite Hm, Herr, He. reflexivity.
Qed.

(** [/translate], non-success status: always a 500 from the [catch]
    block, whatever the upstream body is. *)
Lemma translate_on_failure_500 (r : fetch_response) up tr :
  ok r = false ->
  exists details,
    fst (try_catch (translate_on_response r) translate_catch up tr)
    = Ok (translate_failure details).
Proof.
  intros Hok.
  unfold try_catch, translate_on_response, response_json, bind, lift, ret,
    throw, console_error.
  rewrite Hok. cbn [negb].
  destruct (json r) as [data | m]; [|eexists; reflexivity].
  destruct (upstream_error_message _ data r) as [v | e] eqn:Hm;
    [|eexists; reflexivity].
  assert (exists err, get data (KName (js "error")) = Ok err) as [err Herr].
  { unfold upstream_error_message in Hm.
    destruct (get data (KName (js "error"))); [eauto | discriminate]. }
  rewrite Herr.
  destruct (new_Error v); eexists; reflexivity.
Qed.

(** The message taken from the upstream payload's [error] field ... *)
Lemma upstream_error_message_present (prefix : jsstring) (data err : value)
    (m : jsstring) (r : fetch_response) :
  get data (KName (js "error")) = Ok err ->
  truthy err = true ->
  get err (KName (js "message")) = Ok (VStr m) ->
  upstream_error_message prefix data r = Ok (VStr m).
Proof.
  intros E T Hm. unfold upstream_error_message. now rewrite E, T.
Qed.

(** ... and the status text when the payload has no [error] field. *)
Lemma upstream_error_message_absent (prefix : jsstring)
    (dprops : list (jsstring * value)) (r : fetch_response) :
  own_property dprops (js "error") = None ->
  upstream_error_message prefix (VObj dprops) r
  = Ok (VStr (prefix ++ statusText r)).
Proof.
  intros E. unfold upstream_error_message, get. now rewrite E.
Qed.

(** [/suggest-reply], non-success status: the fixed failure, and the
    upstream body is not read. *)
Lemma suggest_on_failure (r : fetch_response) up tr :
  ok r = false ->
  fst (try_catch (suggest_on_response r) suggest_catch up tr)
  = Ok suggest_failure.
Proof.
  intros Hok.
  unfold try_catch, suggest_on_response, bind, throw. now rewrite Hok.
Qed.

(** [/suggest-reply], upstream success with a first candidate's text. *)
Lemma suggest_on_success (r : fetch_response) (data : value) (t : jsstring)
    up tr :
  ok r = true ->
  json r = JsonResolved data ->
  first_candidate_text data = Ok (VStr t) ->
  try_catch (suggest_on_response r) suggest_catch up tr
  = (Ok (res_json (obj1 "suggestions" (VArr (map VStr (suggestion_lines t))))),
     tr).
Proof.
  intros Hok Hj Ht.
  unfold try_catch, suggest_on_response, response_json, bind, lift, ret.
  rewrite Hok, Hj, Ht. reflexivity.
Qed.

(** [/suggest-reply], a body that is not JSON or has no text in its
    first candidate: the fixed failure. *)
Lemma suggest_on_malformed (r : fetch_response) up tr :
  (forall data t, json r = JsonResolved data ->
                  first_candidate_text data <> Ok (VStr t)) ->
  fst (try_catch (suggest_on_response r) suggest_catch up tr)
  = Ok suggest_failure.
Proof.
  intros Hbad.
  unfold try_catch, suggest_on_response, response_json, bind, lift, ret, throw.
  destruct (ok r); cbn [negb]; [|reflexivity].
  destruct (json r) as [data | m]; [|reflexivity].
  specialize (Hbad data).
  destruct (first_candidate_text data) as [v | e]; [|reflexivity].
  destruct v; try reflexivity.
  now elim (Hbad s).
Qed.

(** Whatever the upstream does, [/suggest-reply] answers 200 or the
    fixed failure. *)
Lemma suggest_on_response_cases (r : fetch_response) up tr :
  exists resp,
    fst (try_catch (suggest_on_response r) suggest_catch up tr) = Ok resp
    /\ (status resp = 200 \/ resp = suggest_failure).
Proof.
  unfold try_catch, suggest_on_response, response_json, bind, lift, ret, throw.
  destruct (ok r); cbn [negb]; [|eexists; split; [reflexivity | now right]].
  destruct (json r) as [data | m]; [|eexists; split; [reflexivity | now right]].
  destruct (first_candidate_text data) as [v | e];
    [|eexists; split; [reflexivity | now right]].
  destruct v; eexists; (split; [reflexivity |]); auto.
Qed.


(** After the [fetch], no handler makes another outbound call. *)
Lemma translate_on_response_quiet (r : fetch_response) :
  quiet (try_catch (translate_on_response r) translate_catch).
Proof.
  intros up tr.
  unfold try_catch, translate_on_response, translate_catch, response_json,
    bind, lift, ret, throw, console_error.
  cbn beta iota; repeat (break_match; cbn beta iota);
    cbn [snd]; rewrite ?outbound_console; reflexivity.
Qed.

Lemma suggest_on_response_quiet (r : fetch_response) :
  quiet (try_catch (suggest_on_response r) suggest_catch).
Proof.
  intros up tr.
  unfold try_catch, suggest_on_response, suggest_catch, response_json,
    bind, lift, ret, throw, console_error.
  cbn beta iota; repeat (break_match; cbn beta iota);
    cbn [snd]; rewrite ?outbound_console; reflexivity.
Qed.

Lemma synthesize_on_response_quiet (r : fetch_response) :
  quiet (try_catch (synthesize_on_response r) synthesize_catch).
Proof.
  intros up tr.
  unfold try_catch, synthesize_on_response, synthesize_catch, response_json,
    bind, lift, ret, throw, console_error.
  cbn beta iota; repeat (break_match; cbn beta iota);
    cbn [snd]; rewrite ?outbound_console; reflexivity.
Qed.

(** A [try] block that starts with the [fetch] records exactly that
    call when the rest is quiet. *)
Lemma try_fetch_outbound {A} (rq : fetch_request)
    (k : fetch_response -> M A) (h : error -> M A) up :
  (forall r, quiet (try_catch (k r) h)) ->
  (forall e, quiet (h e)) ->
  outbound (snd (try_catch (response <- fetch rq ;; k response) h up []))
  = [rq].
Proof.
  intros Qk Qh.
  destruct (up rq) as [r | m] eqn:E.
  - rewrite try_fetch_resolved with (r := r) by exact E.
    rewrite Qk. reflexivity.
  - rewrite try_fetch_rejected with (m := m) by exact E.
    rewrite Qh. reflexivity.
Qed.

Lemma translate_catch_quiet (e : error) : quiet (translate_catch e).
Proof.
  intros up tr. unfold translate_catch, bind, console_error, ret.
  cbn [snd]. apply outbound_console.
Qed.

Lemma suggest_catch_quiet (e : error) : quiet (suggest_catch e).
Proof.
  intros up tr. unfold suggest_catch, bind, console_error, ret.
  cbn [snd]. apply outbound_console.
Qed.

Lemma synthesize_catch_quiet (e : error) : quiet (synthesize_catch e).
Proof.
  intros up tr. unfold synthesize_catch, bind, console_error, ret.
  cbn [snd]. apply outbound_console.
Qed.

End WithEngine.

End HandlerFacts.
Import HandlerFacts.

(* ================================================================== *)
(** ** Request validation and credentials *)

(** C1, as amended: on each of the three endpoints, when the endpoint's
    credential is configured, a JSON body in which some required field is
    missing or is the empty string is answered with HTTP 400 carrying the
    endpoint's fixed error message, and no outbound call is made. *)
Theorem missing_field_is_bad_request `{Engine} (ep : endpoint) (cfg : config)
    (props : list (jsstring * value)) (up : upstream) :
  truthy (key_value (credential ep cfg)) = true ->
  (exists name, In name (required_fields ep) /\ missing_or_empty props name) ->
  fst (run (handler ep cfg (VObj props)) up) = Ok (bad_request ep)
  /\ status (bad_request ep) = 400
  /\ payload (bad_request ep) = obj1 "error" (VStr (missing_fields_error ep))
  /\ outbound (snd (run (handler ep cfg (VObj props)) up)) = [].
Proof.
  intros K M. rewrite (run_missing_field ep cfg up K M).
  repeat split.
Qed.

Lemma missing_field_is_bad_request_witness :
  truthy (key_value (credential SynthesizeSpeech (load_config both_keys))) = true
  /\ fst (run (handler (H := sample_engine) SynthesizeSpeech (load_config both_keys)
                 (VObj [(js "text", VStr (js "hello")); (js "langCode", VStr [])]))
              (stub (Rejected [])))
     = Ok (bad_request SynthesizeSpeech)
  /\ outbound (snd (run (handler (H := sample_engine) SynthesizeSpeech
                           (load_config both_keys)
                           (VObj [(js "text", VStr (js "hello"));
                                  (js "langCode", VStr [])]))
                        (stub (Rejected [])))) = [].
Proof.
  split; [reflexivity|].
  refine ((fun P => conj (proj1 P) (proj2 (proj2 (proj2 P))))
            (@missing_field_is_bad_request sample_engine SynthesizeSpeech
               (load_config both_keys)
               [(js "text", VStr (js "hello")); (js "langCode", VStr [])]
               (stub (Rejected [])) _ _)).
  - reflexivity.
  - exists (js "langCode"). split; [right; left; reflexivity | right; reflexivity].
Defined.

(** C1, as stated, fails: with no credential in the environment a
    [/translate] request whose body has none of the required fields is
    answered 500, not 400. *)
Lemma missing_field_without_credential_is_500 :
  In (js "text") (required_fields Translate)
  /\ missing_or_empty [] (js "text")
  /\ fst (run (handler (H := sample_engine) Translate (load_config no_keys) (VObj []))
              (stub (Rejected [])))
     = Ok (not_configured Translate)
  /\ status (not_configured Translate) = 500
  /\ not_configured Translate <> bad_request Translate.
Proof.
  repeat split.
  - left; reflexivity.
  - left; reflexivity.
  - discriminate.
Qed.

(** C2: on each endpoint, when the environment does not set the endpoint's
    credential, every request is answered with HTTP 500 carrying the
    endpoint's "not configured" message, and no outbound call is made. *)
Theorem unset_credential_is_500 `{Engine} (ep : endpoint) (env : process_env)
    (req_body : value) (up : upstream) :
  env_credential ep env = None ->
  fst (run (handler ep (load_config env) req_body) up) = Ok (not_configured ep)
  /\ status (not_configured ep) = 500
  /\ payload (not_configured ep) = obj1 "error" (VStr (not_configured_error ep))
  /\ includes (not_configured_error ep) (js "not configured") = true
  /\ outbound (snd (run (handler ep (load_config env) req_body) up)) = [].
Proof.
  intros U.
  rewrite run_not_configured
    by (rewrite credential_load, U; reflexivity).
  repeat split. destruct ep; reflexivity.
Qed.

Lemma unset_credential_is_500_witness :
  env_credential SuggestReply no_keys = None
  /\ fst (run (handler (H := sample_engine) SuggestReply (load_config no_keys)
                 (VObj (suggest_body (js "hello") (js "English"))))
              (stub (Resolved (ok_response (gemini_reply (js "hi"))))))
     = Ok (not_configured SuggestReply).
Proof.
  split; [reflexivity|].
  exact (proj1 (@unset_credential_is_500 sample_engine SuggestReply no_keys
                  (VObj (suggest_body (js "hello") (js "English")))
                  (stub (Resolved (ok_response (gemini_reply (js "hi")))))
                  eq_refl)).
Defined.

(** C9: the credential is tested before the fields.  A request that lacks a
    required field and arrives while the endpoint's credential is unset is
    answered 500 "not configured", not 400. *)
Theorem credential_checked_before_fields `{Engine} (ep : endpoint)
    (env : process_env) (props : list (jsstring * value)) (up : upstream) :
  env_credential ep env = None ->
  (exists name, In name (required_fields ep) /\ missing_or_empty props name) ->
  exists resp,
    fst (run (handler ep (load_config env) (VObj props)) up) = Ok resp
    /\ resp = not_configured ep
    /\ status resp = 500
    /\ status resp <> 400.
Proof.
  intros U _. exists (not_configured ep).
  rewrite run_not_configured
    by (rewrite credential_load, U; reflexivity).
  repeat split. discriminate.
Qed.

Lemma credential_checked_before_fields_witness :
  exists resp,
    fst (run (handler (H := sample_engine) SynthesizeSpeech (load_config no_keys)
                (VObj [(js "text", VStr (js "hello"))]))
             (stub (Rejected [])))
    = Ok resp
    /\ resp = not_configured SynthesizeSpeech
    /\ status resp = 500
    /\ status resp <> 400.
Proof.
  apply (@credential_checked_before_fields sample_engine SynthesizeSpeech no_keys
           [(js "text", VStr (js "hello"))] (stub (Rejected []))).
  - reflexivity.
  - exists (js "langCode"). split; [right; left; reflexivity | left; reflexivity].
Defined.

(* ================================================================== *)
(** ** [/translate] *)

(** C3: a valid [/translate] request (credential configured, the three
    fields non-empty strings) makes exactly one outbound call: a POST of
    JSON to the generateContent URL carrying the key, whose one prompt is
    the multi-word template if and only if [text] contains a space, and
    the single-word template otherwise, with [text], [sourceLang] and
    [targetLang] substituted. *)
Theorem translate_prompt_by_space `{Engine} (cfg : config)
    (props : list (jsstring * value)) (key text sourceLang targetLang : jsstring)
    (up : upstream) :
  GEMINI_API_KEY cfg = Some key ->
  key <> [] ->
  string_field props (js "text") text ->
  string_field props (js "sourceLang") sourceLang ->
  string_field props (js "targetLang") targetLang ->
  exists prompt,
    outbound (snd (run (translate cfg (VObj props)) up))
    = [ {| url := js "https://generativelanguage.googleapis.com/v1beta/models/gemini-1.5-flash-latest:generateContent?key="
                  ++ key;
           method := js "POST";
           headers := [(js "Content-Type", js "application/json")];
           body := VObj [(js "contents",
                          VArr [VObj [(js "parts",
                                       VArr [VObj [(js "text", VStr prompt)]])]])]
        |} ]
    /\ (In SPACE text ->
        prompt = js "Translate the following " ++ sourceLang ++ js " text to "
                 ++ targetLang
                 ++ js ". Provide ONLY the translated text. Text: "
                 ++ [34%N] ++ text ++ [34%N])
    /\ (~ In SPACE text ->
        prompt = js "Translate the word " ++ [34%N] ++ text ++ [34%N]
                 ++ js " from " ++ sourceLang ++ js " to " ++ targetLang
                 ++ js ". Provide only the single translated word.")
    /\ (prompt = js "Translate the following " ++ sourceLang ++ js " text to "
                 ++ targetLang
                 ++ js ". Provide ONLY the translated text. Text: "
                 ++ [34%N] ++ text ++ [34%N]
        <-> In SPACE text).
Proof.
  intros Hkey Hne Ht Hs Hg.
  assert (truthy (key_value (GEMINI_API_KEY cfg)) = true) as K
    by (rewrite Hkey; now apply truthy_str).
  rewrite run_translate_valid
    with (t := text) (s := sourceLang) (g := targetLang) by assumption.
  rewrite try_fetch_outbound
    by (intros; first [apply translate_on_response_quiet
                      | apply translate_catch_quiet]).
  unfold translate_request, post_json, gemini_url, key_text, gemini_body, obj1.
  rewrite Hkey. change (js " ") with [SPACE].
  pose proof (includes_unit text SPACE) as I.
  pose proof (@templates_differ text sourceLang targetLang
                                text sourceLang targetLang) as D.
  unfold multi_word_template, single_word_template, DQUOTE in *.
  destruct (includes text [SPACE]); cbn [negb]; eexists; (split; [reflexivity|]).
  - assert (In SPACE text) as Y by now apply I.
    split; [auto|]. split; [intros N; now elim N|]. split; auto.
  - assert (~ In SPACE text) as N by (intros Y; apply I in Y; discriminate).
    split; [intros Y; now elim N|]. split; [auto|].
    split; [|intros Y; now elim N].
    intros E. symmetry in E. now apply D in E.
Qed.

Lemma translate_prompt_by_space_witness :
  exists prompt,
    outbound (snd (run (translate (H := sample_engine) (load_config both_keys)
                          (VObj (translate_body (js "good morning") (js "English")
                                                (js "French"))))
                       (stub (Rejected []))))
    = [ {| url := js "https://generativelanguage.googleapis.com/v1beta/models/gemini-1.5-flash-latest:generateContent?key=gemini-key";
           method := js "POST";
           headers := [(js "Content-Type", js "application/json")];
           body := VObj [(js "contents",
                          VArr [VObj [(js "parts",
                                       VArr [VObj [(js "text", VStr prompt)]])]])]
        |} ]
    /\ prompt
       = js "Translate the following English text to French. Provide ONLY the translated text. Text: "
         ++ [34%N] ++ js "good morning" ++ [34%N].
Proof.
  destruct (@translate_prompt_by_space sample_engine (load_config both_keys)
              (translate_body (js "good morning") (js "English") (js "French"))
              (js "gemini-key") (js "good morning") (js "English") (js "French")
              (stub (Rejected [])))
    as [prompt [Hout [Hmulti _]]].
  - reflexivity.
  - discriminate.
  - split; [reflexivity | discriminate].
  - split; [reflexivity | discriminate].
  - split; [reflexivity | discriminate].
  - exists prompt. split; [exact Hout|].
    rewrite Hmulti; [reflexivity|]. vm_compute. tauto.
Defined.

(** C4: when the upstream call of a valid [/translate] request succeeds
    with at least one candidate, the response is HTTP 200 with
    [{translation}] the first candidate's text with the white space at both
    ends removed, and nothing else removed. *)
Theorem translate_success_trims `{Engine} (cfg : config)
    (props : list (jsstring * value)) (text sourceLang targetLang : jsstring)
    (up : upstream) (r : fetch_response) (data c : value) (cs : list value)
    (candidate_text : jsstring) :
  truthy (key_value (GEMINI_API_KEY cfg)) = true ->
  string_field props (js "text") text ->
  string_field props (js "sourceLang") sourceLang ->
  string_field props (js "targetLang") targetLang ->
  up (translate_request cfg text sourceLang targetLang) = Resolved r ->
  ok r = true ->
  json r = JsonResolved data ->
  get data (KName (js "candidates")) = Ok (VArr (c :: cs)) ->
  first_candidate_text data = Ok (VStr candidate_text) ->
  fst (run (translate cfg (VObj props)) up)
  = Ok {| status := 200;
          payload := obj1 "translation" (VStr (trim candidate_text)) |}
  /\ (exists pre post,
         candidate_text = pre ++ trim candidate_text ++ post
         /\ forallb is_white_space pre = true
         /\ forallb is_white_space post = true)
  /\ (forall u rest, trim candidate_text = u :: rest -> is_white_space u = false)
  /\ (forall u rest, trim candidate_text = rest ++ [u] -> is_white_space u = false).
Proof.
  intros K Ht Hs Hg Hup Hok Hj Hc Htext.
  rewrite run_translate_valid
    with (t := text) (s := sourceLang) (g := targetLang) by assumption.
  rewrite try_fetch_resolved with (r := r) by exact Hup.
  rewrite translate_on_success with (data := data) (t := candidate_text)
    by (first [assumption | eapply no_candidates_array; eassumption]).
  split; [reflexivity|]. split; [apply trim_decompose|].
  split; intros u rest E; [eapply trim_first | eapply trim_last]; eauto.
Qed.

Lemma translate_success_trims_witness :
  fst (run (translate (H := sample_engine) (load_config both_keys)
              (VObj (translate_body (js "cat") (js "English") (js "French"))))
           (stub (Resolved (ok_response (gemini_reply (js " chat" ++ [LF]))))))
  = Ok {| status := 200; payload := obj1 "translation" (VStr (js "chat")) |}.
Proof.
  exact (proj1 (@translate_success_trims sample_engine (load_config both_keys)
                  (translate_body (js "cat") (js "English") (js "French"))
                  (js "cat") (js "English") (js "French")
                  (stub (Resolved (ok_response (gemini_reply (js " chat" ++ [LF])))))
                  (ok_response (gemini_reply (js " chat" ++ [LF])))
                  (gemini_reply (js " chat" ++ [LF]))
                  (obj1 "content"
                     (obj1 "parts" (VArr [obj1 "text" (VStr (js " chat" ++ [LF]))])))
                  [] (js " chat" ++ [LF])
                  eq_refl
                  (conj eq_refl (fun E => @List.nil_cons _ _ _ (eq_sym E)))
                  (conj eq_refl (fun E => @List.nil_cons _ _ _ (eq_sym E)))
                  (conj eq_refl (fun E => @List.nil_cons _ _ _ (eq_sym E)))
                  eq_refl eq_refl eq_refl eq_refl eq_refl)).
Defined.

(** C5, as amended: a valid [/translate] request whose upstream call
    resolves with a non-success status is answered with HTTP 500 and
    [error: "Failed to translate text"].  When the upstream body is JSON
    whose [error] field is truthy with a string [message], [details] is that
    message; when the body is JSON on which [error] reads as absent or
    falsy, [details] is "API request failed: " followed by the status text;
    when the body is not JSON, [details] is the message of the failed
    [response.json()].  When the call succeeds but the payload has no
    [candidates], or an empty array of them, the response is HTTP 500 with
    the no-candidate message. *)
Theorem translate_upstream_failure `{Engine} (cfg : config)
    (props : list (jsstring * value)) (text sourceLang targetLang : jsstring)
    (up : upstream) (r : fetch_response) :
  truthy (key_value (GEMINI_API_KEY cfg)) = true ->
  string_field props (js "text") text ->
  string_field props (js "sourceLang") sourceLang ->
  string_field props (js "targetLang") targetLang ->
  up (translate_request cfg text sourceLang targetLang) = Resolved r ->
  (ok r = false ->
   exists details,
     fst (run (translate cfg (VObj props)) up)
     = Ok {| status := 500;
             payload := VObj [(js "error", VStr (js "Failed to translate text"));
                              (js "details", VStr details)] |})
  /\ (ok r = false ->
      forall data err message,
        json r = JsonResolved data ->
        get data (KName (js "error")) = Ok err ->
        truthy err = true ->
        get err (KName (js "message")) = Ok (VStr message) ->
        fst (run (translate cfg (VObj props)) up)
        = Ok {| status := 500;
                payload := VObj [(js "error", VStr (js "Failed to translate text"));
                                 (js "details", VStr message)] |})
  /\ (ok r = false ->
      forall data err,
        json r = JsonResolved data ->
        get data (KName (js "error")) = Ok err ->
        truthy err = false ->
        fst (run (translate cfg (VObj props)) up)
        = Ok {| status := 500;
                payload := VObj [(js "error", VStr (js "Failed to translate text"));
                                 (js "details",
                                  VStr (js "API request failed: "
                                        ++ statusText r))] |})
  /\ (forall m,
        json r = JsonRejected m ->
        fst (run (translate cfg (VObj props)) up)
        = Ok {| status := 500;
                payload := VObj [(js "error", VStr (js "Failed to translate text"));
                                 (js "details", VStr m)] |})
  /\ (ok r = true ->
      forall dprops,
        json r = JsonResolved (VObj dprops) ->
        own_property dprops (js "candidates") = None
        \/ own_property dprops (js "candidates") = Some (VArr []) ->
        fst (run (translate cfg (VObj props)) up)
        = Ok {| status := 500;
                payload := VObj [(js "error", VStr (js "Failed to translate text"));
                                 (js "details",
                                  VStr (js "No translation candidate found in the API response."))] |}).
Proof.
  intros K Ht Hs Hg Hup.
  rewrite run_translate_valid
    with (t := text) (s := sourceLang) (g := targetLang) by assumption.
  rewrite try_fetch_resolved with (r := r) by exact Hup.
  split; [|split; [|split; [|split]]].
  - intros Hok. now apply translate_on_failure_500.
  - intros Hok data err message Hj He Ht' Hm.
    apply translate_on_failure with (data := data) (v := VStr message)
                                    (e := Error message); auto.
    eapply upstream_error_message_present; eauto.
  - intros Hok data err Hj He Te.
    apply translate_on_failure
      with (data := data)
           (v := VStr (js "API request failed: " ++ statusText r))
           (e := Error (js "API request failed: " ++ statusText r)); auto.
    unfold upstream_error_message. now rewrite He, Te.
  - intros m Hj.
    unfold try_catch, translate_on_response, response_json, bind, throw.
    rewrite Hj. reflexivity.
  - intros Hok dprops Hj Hc.
    apply translate_on_no_candidate with (data := VObj dprops); auto.
    now apply no_candidates_missing.
Qed.

Lemma translate_upstream_failure_witness :
  fst (run (translate (H := sample_engine) (load_config both_keys)
              (VObj (translate_body (js "cat") (js "English") (js "French"))))
           (stub (Resolved (error_response (js "Too Many Requests")
                              (error_payload (js "quota exceeded"))))))
  = Ok {| status := 500;
          payload := VObj [(js "error", VStr (js "Failed to translate text"));
                           (js "details", VStr (js "quota exceeded"))] |}.
Proof.
  refine (proj1 (proj2
    (@translate_upstream_failure sample_engine (load_config both_keys)
       (translate_body (js "cat") (js "English") (js "French"))
       (js "cat") (js "English") (js "French")
       (stub (Resolved (error_response (js "Too Many Requests")
                          (error_payload (js "quota exceeded")))))
       (error_response (js "Too Many Requests")
                       (error_payload (js "quota exceeded")))
       eq_refl _ _ _ eq_refl))
    eq_refl (error_payload (js "quota exceeded"))
    (obj1 "message" (VStr (js "quota exceeded"))) (js "quota exceeded")
    eq_refl eq_refl eq_refl eq_refl);
  (split; [reflexivity | discriminate]).
Defined.

(** C5, as stated, fails: a non-success upstream answer whose body is not
    JSON (a gateway's HTML page, say) has no [error] field, yet the
    [details] of the 500 response is the message of the failed
    [response.json()]; it is neither a message from the payload nor the
    status text. *)
Lemma translate_details_of_unreadable_error_body :
  fst (run (translate (H := sample_engine) (load_config both_keys)
              (VObj (translate_body (js "cat") (js "English") (js "French"))))
           (stub (Resolved {| ok := false;
                              statusText := js "Bad Gateway";
                              json := JsonRejected
                                        (js "invalid json response body") |})))
  = Ok {| status := 500;
          payload := VObj [(js "error", VStr (js "Failed to translate text"));
                           (js "details",
                            VStr (js "invalid json response body"))] |}
  /\ js "invalid json response body" <> js "API request failed: Bad Gateway"
  /\ includes (js "invalid json response body") (js "Bad Gateway") = false.
Proof.
  split; [reflexivity|]. split; [discriminate | reflexivity].
Qed.

(* ================================================================== *)
(** ** [/suggest-reply] *)

(** With the credential set and both fields truthy, [/suggest-reply] either
    fails to build its prompt and goes to the [catch] block, or makes the
    outbound call. *)
Lemma run_suggest_checked `{Engine} (cfg : config) (req_body text language : value)
    (up : upstream) :
  truthy (key_value (GEMINI_API_KEY cfg)) = true ->
  destructure req_body (js "text") = Ok text ->
  destructure req_body (js "language") = Ok language ->
  truthy text = true ->
  truthy language = true ->
  run (suggest_reply cfg req_body) up
  = match suggest_prompt text language with
    | Ok prompt =>
        try_catch (response <- fetch (post_json (gemini_url (GEMINI_API_KEY cfg))
                                                (gemini_body prompt)) ;;
                   suggest_on_response response)
                  suggest_catch up []
    | Throw e => suggest_catch e up []
    end.
Proof.
  intros K Ht Hl Nt Nl.
  unfold suggest_reply, run. rewrite K. cbn [negb].
  unfold try_catch, bind at 1 2 3, lift.
  rewrite Ht, Hl, Nt, Nl. cbn [negb orb].
  destruct (suggest_prompt text language); reflexivity.
Qed.

(** C7: once the credential and field checks have passed, [/suggest-reply]
    answers either 200 or HTTP 500 with exactly
    [{error: "Failed to generate suggestions"}].  A non-success upstream
    status, and an upstream body without a first candidate's text, both give
    that fixed body, which carries nothing from the upstream payload. *)
Theorem suggest_failure_is_generic `{Engine} (cfg : config)
    (req_body text language : value) (up : upstream) :
  truthy (key_value (GEMINI_API_KEY cfg)) = true ->
  destructure req_body (js "text") = Ok text ->
  destructure req_body (js "language") = Ok language ->
  truthy text = true ->
  truthy language = true ->
  (exists resp,
      fst (run (suggest_reply cfg req_body) up) = Ok resp
      /\ (status resp = 200
          \/ resp = {| status := 500;
                       payload := obj1 "error"
                                    (VStr (js "Failed to generate suggestions")) |}))
  /\ ((forall rq r, up rq = Resolved r -> ok r = false) ->
      fst (run (suggest_reply cfg req_body) up) = Ok suggest_failure)
  /\ ((forall rq r data t, up rq = Resolved r -> json r = JsonResolved data ->
                           first_candidate_text data <> Ok (VStr t)) ->
      fst (run (suggest_reply cfg req_body) up) = Ok suggest_failure).
Proof.
  intros K Ht Hl Nt Nl.
  rewrite (run_suggest_checked cfg req_body up K Ht Hl Nt Nl).
  destruct (suggest_prompt text language) as [prompt | e].
  2: { repeat split; try reflexivity. eexists; split; [reflexivity | now right]. }
  set (rq := post_json (gemini_url (GEMINI_API_KEY cfg)) (gemini_body prompt)).
  destruct (up rq) as [r | m] eqn:E.
  - rewrite try_fetch_resolved with (r := r) by exact E.
    split; [apply suggest_on_response_cases|].
    split; intros F.
    + apply suggest_on_failure. eapply F; eauto.
    + apply suggest_on_malformed. intros data t. eapply F; eauto.
  - rewrite try_fetch_rejected with (m := m) by exact E.
    repeat split; try reflexivity. eexists; split; [reflexivity | now right].
Qed.

Lemma suggest_failure_is_generic_witness :
  fst (run (suggest_reply (H := sample_engine) (load_config both_keys)
              (VObj (suggest_body (js "hello") (js "English"))))
           (stub (Resolved (error_response (js "Too Many Requests")
                              (error_payload (js "quota exceeded"))))))
  = Ok suggest_failure.
Proof.
  refine (proj1 (proj2
    (@suggest_failure_is_generic sample_engine (load_config both_keys)
       (VObj (suggest_body (js "hello") (js "English")))
       (VStr (js "hello")) (VStr (js "English"))
       (stub (Resolved (error_response (js "Too Many Requests")
                          (error_payload (js "quota exceeded")))))
       eq_refl eq_refl eq_refl eq_refl eq_refl)) _).
  intros rq r E. injection E as <-. reflexivity.
Defined.

(** C6, as amended: when the upstream call of a valid [/suggest-reply]
    request succeeds, the response is HTTP 200 with [{suggestions}] equal to
    the upstream text, trimmed of the white space at its two ends, split on
    line feeds, with the white-space-only lines discarded and the order of
    the others kept; their number is whatever the split gives.  The pieces
    joined by line feeds are the trimmed text, and when the upstream text
    has no white space at its ends this is the upstream text split on line
    breaks with blank lines discarded. *)
Theorem suggest_success_lines `{Engine} (cfg : config)
    (props : list (jsstring * value)) (text language : jsstring)
    (up : upstream) (r : fetch_response) (data : value)
    (upstream_text : jsstring) :
  truthy (key_value (GEMINI_API_KEY cfg)) = true ->
  string_field props (js "text") text ->
  string_field props (js "language") language ->
  up (suggest_request cfg text language) = Resolved r ->
  ok r = true ->
  json r = JsonResolved data ->
  first_candidate_text data = Ok (VStr upstream_text) ->
  fst (run (suggest_reply cfg (VObj props)) up)
  = Ok {| status := 200;
          payload := obj1 "suggestions"
                       (VArr (map VStr (filter non_blank
                                          (split LF (trim upstream_text))))) |}
  /\ join [LF] (split LF (trim upstream_text)) = trim upstream_text
  /\ Forall (fun line => ~ In LF line) (split LF (trim upstream_text))
  /\ (trim upstream_text = upstream_text ->
      filter non_blank (split LF (trim upstream_text))
      = spec_suggestions upstream_text).
Proof.
  intros K Ht Hl Hup Hok Hj Htext.
  rewrite run_suggest_valid with (t := text) (l := language) by assumption.
  rewrite try_fetch_resolved with (r := r) by exact Hup.
  rewrite suggest_on_success with (data := data) (t := upstream_text)
    by assumption.
  rewrite res_json_suggestions.
  split; [reflexivity|]. split; [apply join_split|].
  split; [apply split_no_sep|].
  intros E. unfold spec_suggestions. now rewrite E.
Qed.

Lemma suggest_success_lines_witness :
  fst (run (suggest_reply (H := sample_engine) (load_config both_keys)
              (VObj (suggest_body (js "hello") (js "English"))))
           (stub (Resolved (ok_response (gemini_reply hi_thanks)))))
  = Ok {| status := 200;
          payload := obj1 "suggestions"
                       (VArr [VStr (js "Hi"); VStr (js "Thanks");
                              VStr (js "See you")]) |}.
Proof.
  exact (proj1 (@suggest_success_lines sample_engine (load_config both_keys)
                  (suggest_body (js "hello") (js "English"))
                  (js "hello") (js "English")
                  (stub (Resolved (ok_response (gemini_reply hi_thanks))))
                  (ok_response (gemini_reply hi_thanks))
                  (gemini_reply hi_thanks) hi_thanks
                  eq_refl
                  (conj eq_refl (fun E => @List.nil_cons _ _ _ (eq_sym E)))
                  (conj eq_refl (fun E => @List.nil_cons _ _ _ (eq_sym E)))
                  eq_refl eq_refl eq_refl eq_refl)).
Defined.

(** C6, as stated, fails: for the upstream text " a\nb" the handler returns
    ["a", "b"], while the upstream text split on line breaks with blank
    lines discarded is [" a", "b"]. *)
Lemma suggest_trims_before_split :
  fst (run (suggest_reply (H := sample_engine) (load_config both_keys)
              (VObj (suggest_body (js "hello") (js "English"))))
           (stub (Resolved (ok_response (gemini_reply leading_space)))))
  = Ok {| status := 200;
          payload := obj1 "suggestions" (VArr [VStr (js "a"); VStr (js "b")]) |}
  /\ spec_suggestions leading_space = [js " a"; js "b"]
  /\ map VStr (spec_suggestions leading_space) <> [VStr (js "a"); VStr (js "b")].
Proof.
  split; [reflexivity|]. split; [reflexivity|]. discriminate.
Qed.

(** C10: in [/suggest-reply] the upstream text is trimmed as a whole and
    the lines are not: if the trimmed text is the lines [lines] joined by
    line feeds, the suggestions are exactly those of [lines] that are not
    white-space-only, each with its own leading and trailing white space. *)
Theorem suggest_lines_keep_whitespace `{Engine} (cfg : config)
    (props : list (jsstring * value)) (text language : jsstring)
    (up : upstream) (r : fetch_response) (data : value)
    (upstream_text : jsstring) (lines : list jsstring) :
  truthy (key_value (GEMINI_API_KEY cfg)) = true ->
  string_field props (js "text") text ->
  string_field props (js "language") language ->
  up (suggest_request cfg text language) = Resolved r ->
  ok r = true ->
  json r = JsonResolved data ->
  first_candidate_text data = Ok (VStr upstream_text) ->
  lines <> [] ->
  Forall (fun line => ~ In LF line) lines ->
  trim upstream_text = join [LF] lines ->
  fst (run (suggest_reply cfg (VObj props)) up)
  = Ok {| status := 200;
          payload := obj1 "suggestions"
                       (VArr (map VStr (filter non_blank lines))) |}.
Proof.
  intros K Ht Hl Hup Hok Hj Htext Hne Hlines Htrim.
  rewrite run_suggest_valid with (t := text) (l := language) by assumption.
  rewrite try_fetch_resolved with (r := r) by exact Hup.
  rewrite suggest_on_success with (data := data) (t := upstream_text)
    by assumption.
  rewrite res_json_suggestions.
  unfold suggestion_lines. rewrite Htrim, split_join by assumption.
  reflexivity.
Qed.

Lemma suggest_lines_keep_whitespace_witness :
  fst (run (suggest_reply (H := sample_engine) (load_config both_keys)
              (VObj (suggest_body (js "hello") (js "English"))))
           (stub (Resolved (ok_response (gemini_reply padded_lines)))))
  = Ok {| status := 200;
          payload := obj1 "suggestions"
                       (VArr [VStr (js "a"); VStr (js "  b  "); VStr (js "c")]) |}.
Proof.
  refine (@suggest_lines_keep_whitespace sample_engine (load_config both_keys)
            (suggest_body (js "hello") (js "English"))
            (js "hello") (js "English")
            (stub (Resolved (ok_response (gemini_reply padded_lines))))
            (ok_response (gemini_reply padded_lines))
            (gemini_reply padded_lines) padded_lines
            [js "a"; js "  b  "; js "c"]
            eq_refl
            (conj eq_refl (fun E => @List.nil_cons _ _ _ (eq_sym E)))
            (conj eq_refl (fun E => @List.nil_cons _ _ _ (eq_sym E)))
            eq_refl eq_refl eq_refl eq_refl
            (fun E => @List.nil_cons _ _ _ (eq_sym E)) _ eq_refl).
  repeat constructor; vm_compute; intuition discriminate.
Defined.

(* ================================================================== *)
(** ** [/synthesize-speech] *)




(* ================================================================== *)
(** ** Properties of the handlers on every input *)

(** X3: no exception leaves a handler.  Whatever the configuration, the
    request body and the upstream do, the handler sends a response, and its
    status is 200, 400 or 500. *)
Theorem handler_always_responds `{Engine} (ep : endpoint) (cfg : config)
    (req_body : value) (up : upstream) :
  exists resp,
    fst (run (handler ep cfg req_body) up) = Ok resp
    /\ (status resp = 200 \/ status resp = 400 \/ status resp = 500).
Proof.
  destruct ep; unfold_all;
    repeat (break_match; cbn beta iota);
    eexists; (split; [reflexivity | cbn; auto]).
Qed.

(** X4: a handler makes at most one outbound call per request, whatever the
    upstream answers: nothing is retried. *)
Theorem at_most_one_outbound_call `{Engine} (ep : endpoint) (cfg : config)
    (req_body : value) (up : upstream) :
  List.length (outbound (snd (run (handler ep cfg req_body) up))) <= 1.
Proof.
  destruct ep; unfold_all;
    repeat (break_match; cbn beta iota);
    cbn [snd]; rewrite ?outbound_console; cbn; lia.
Qed.

(** X5: a 400 response is sent before anything else happens: no outbound
    call was made and nothing was logged. *)
Theorem bad_request_has_no_effect `{Engine} (ep : endpoint) (cfg : config)
    (req_body : value) (up : upstream) (resp : http_response) :
  fst (run (handler ep cfg req_body) up) = Ok resp ->
  status resp = 400 ->
  snd (run (handler ep cfg req_body) up) = [] /\ resp = bad_request ep.
Proof.
  destruct ep; unfold_all;
    repeat (break_match; cbn beta iota);
    cbn [fst snd]; intros E S; inversion E; subst; cbn in S;
    try discriminate; split; reflexivity.
Qed.

Lemma bad_request_has_no_effect_witness :
  snd (run (handler (H := sample_engine) Translate (load_config both_keys)
              (VObj [(js "text", VStr (js "cat"))]))
           (stub (Rejected [])))
  = []
  /\ bad_request Translate = bad_request Translate.
Proof.
  exact (@bad_request_has_no_effect sample_engine Translate (load_config both_keys)
           (VObj [(js "text", VStr (js "cat"))]) (stub (Rejected []))
           (bad_request Translate) eq_refl eq_refl).
Defined.

(** X6: a 200 response is sent only after exactly one outbound call that
    the upstream settled with a success status. *)
Theorem success_needs_upstream_success `{Engine} (ep : endpoint) (cfg : config)
    (req_body : value) (up : upstream) (resp : http_response) :
  fst (run (handler ep cfg req_body) up) = Ok resp ->
  status resp = 200 ->
  exists rq r,
    outbound (snd (run (handler ep cfg req_body) up)) = [rq]
    /\ up rq = Resolved r
    /\ ok r = true.
Proof.
  destruct ep; unfold_all;
    repeat (break_match_eqn; cbn beta iota);
    cbn [fst snd]; intros E S; inversion E; subst; cbn in S;
    try discriminate;
    match goal with
    | U : up ?rq = Resolved ?r |- _ => exists rq, r
    end;
    rewrite ?outbound_console; (split; [reflexivity|]);
    (split; [assumption|]);
    match goal with
    | N : negb (ok ?r) = false |- _ => now apply negb_false_iff in N
    end.
Qed.

Lemma success_needs_upstream_success_witness :
  exists rq r,
    outbound (snd (run (handler (H := sample_engine) SynthesizeSpeech
                          (load_config both_keys)
                          (VObj (speech_body (js "hello") (js "en-US"))))
                       (stub (Resolved (ok_response VNull)))))
    = [rq]
    /\ stub (Resolved (ok_response VNull)) rq = Resolved r
    /\ ok r = true.
Proof.
  exact (@success_needs_upstream_success sample_engine SynthesizeSpeech
           (load_config both_keys)
           (VObj (speech_body (js "hello") (js "en-US")))
           (stub (Resolved (ok_response VNull)))
           (res_json VNull) eq_refl eq_refl).
Defined.

Lemma drop_while_all (p : code_unit -> bool) (s : jsstring) :
  forallb p s = true -> drop_while p s = [].
Proof.
  induction s as [|c s IH]; simpl; [reflexivity|].
  rewrite andb_true_iff. intros [Pc F]. rewrite Pc. auto.
Qed.

(** A string of white space trims to the empty string. *)
Lemma trim_white_space (s : jsstring) :
  forallb is_white_space s = true -> trim s = [].
Proof.
  intros F. unfold trim, trimStart, trimEnd.
  rewrite (drop_while_all _ _ F). reflexivity.
Qed.

(** X1: a credential that is set to nothing but white space counts as not
    configured: it is trimmed to the empty string at start-up, and every
    request to the endpoint is answered 500 without an outbound call. *)
Theorem blank_credential_is_not_configured `{Engine} (ep : endpoint)
    (env : process_env) (s : jsstring) (req_body : value) (up : upstream) :
  env_credential ep env = Some s ->
  forallb is_white_space s = true ->
  fst (run (handler ep (load_config env) req_body) up) = Ok (not_configured ep)
  /\ outbound (snd (run (handler ep (load_config env) req_body) up)) = [].
Proof.
  intros E F.
  rewrite run_not_configured; [split; reflexivity|].
  rewrite credential_load, E. unfold load_key.
  destruct (truthy (VStr s)); [|reflexivity].
  now rewrite (trim_white_space _ F).
Qed.

Lemma blank_credential_is_not_configured_witness :
  fst (run (handler (H := sample_engine) Translate
              (load_config {| env_GEMINI_API_KEY := Some (js "  ");
                              env_TTS_API_KEY := None |})
              (VObj (translate_body (js "cat") (js "English") (js "French"))))
           (stub (Resolved (ok_response (gemini_reply (js "chat"))))))
  = Ok (not_configured Translate)
  /\ outbound (snd (run (handler (H := sample_engine) Translate
                           (load_config {| env_GEMINI_API_KEY := Some (js "  ");
                                           env_TTS_API_KEY := None |})
                           (VObj (translate_body (js "cat") (js "English")
                                                 (js "French"))))
                        (stub (Resolved (ok_response (gemini_reply (js "chat")))))))
     = [].
Proof.
  exact (@blank_credential_is_not_configured sample_engine Translate
           {| env_GEMINI_API_KEY := Some (js "  "); env_TTS_API_KEY := None |}
           (js "  ")
           (VObj (translate_body (js "cat") (js "English") (js "French")))
           (stub (Resolved (ok_response (gemini_reply (js "chat")))))
           eq_refl eq_refl).
Defined.

(** X2: with the credential set, a request whose body is [undefined] or
    [null] fails in the destructuring and is answered by the [catch] block:
    HTTP 500, not 400, with no outbound call. *)
Theorem nullish_body_is_500 `{Engine} (ep : endpoint) (cfg : config)
    (req_body : value) (up : upstream) :
  truthy (key_value (credential ep cfg)) = true ->
  nullish req_body = true ->
  fst (run (handler ep cfg req_body) up)
  = Ok (failure ep (type_error_message
                      (TE_destructure_nullish req_body (js "text"))))
  /\ status (failure ep (type_error_message
                           (TE_destructure_nullish req_body (js "text")))) = 500
  /\ outbound (snd (run (handler ep cfg req_body) up)) = [].
Proof.
  intros K N.
  destruct req_body; try discriminate;
    destruct ep; simpl in K; unfold_handler; rewrite K;
    repeat split.
Qed.

Lemma nullish_body_is_500_witness :
  fst (run (handler (H := sample_engine) Translate (load_config both_keys)
              VUndefined)
           (stub (Rejected [])))
  = Ok (translate_failure
          (js "Cannot destructure property 'text' of 'req.body' as it is undefined.")).
Proof.
  exact (proj1 (@nullish_body_is_500 sample_engine Translate
                  (load_config both_keys) VUndefined (stub (Rejected []))
                  eq_refl eq_refl)).
Defined.

(** X7: when the outbound call itself fails (the [fetch] is rejected with
    message [m]), the handler that made it answers from its [catch] block:
    [/translate] and [/synthesize-speech] put [m] in [details],
    [/suggest-reply] sends its fixed body. *)
Theorem rejected_fetch_is_500 `{Engine} (ep : endpoint) (cfg : config)
    (req_body : value) (up : upstream) (m : jsstring) :
  (forall rq, up rq = Rejected m) ->
  outbound (snd (run (handler ep cfg req_body) up)) <> [] ->
  fst (run (handler ep cfg req_body) up) = Ok (failure ep m).
Proof.
  intros R.
  destruct ep; unfold_all;
    repeat (first [rewrite R | break_match]; cbn beta iota);
    cbn [fst snd]; intros N; try (now elim N); reflexivity.
Qed.

Lemma rejected_fetch_is_500_witness :
  fst (run (handler (H := sample_engine) SynthesizeSpeech (load_config both_keys)
              (VObj (speech_body (js "hello") (js "en-US"))))
           (stub (Rejected (js "socket hang up"))))
  = Ok (synthesize_failure (js "socket hang up")).
Proof.
  refine (@rejected_fetch_is_500 sample_engine SynthesizeSpeech
            (load_config both_keys)
            (VObj (speech_body (js "hello") (js "en-US")))
            (stub (Rejected (js "socket hang up"))) (js "socket hang up")
            (fun _ => eq_refl) _).
  vm_compute. discriminate.
Defined.

(** X8: when the upstream body cannot be read as JSON ([response.json()]
    is rejected with message [m]), the handler that made the call answers
    500: [/translate] and [/synthesize-speech] read the body before they look
    at the status and put [m] in [details], whatever the status was;
    [/suggest-reply] sends its fixed body. *)
Theorem unreadable_body_is_500 `{Engine} (ep : endpoint) (cfg : config)
    (req_body : value) (up : upstream) (r : fetch_response) (m : jsstring) :
  (forall rq, up rq = Resolved r) ->
  json r = JsonRejected m ->
  outbound (snd (run (handler ep cfg req_body) up)) <> [] ->
  fst (run (handler ep cfg req_body) up) = Ok (failure ep m).
Proof.
  intros R J.
  destruct ep; unfold_all;
    repeat (first [rewrite R | rewrite J | break_match]; cbn beta iota);
    cbn [fst snd]; intros N; try (now elim N); reflexivity.
Qed.

Lemma unreadable_body_is_500_witness :
  fst (run (handler (H := sample_engine) Translate (load_config both_keys)
              (VObj (translate_body (js "cat") (js "English") (js "French"))))
           (stub (Resolved {| ok := true; statusText := js "OK";
                              json := JsonRejected (js "invalid json") |})))
  = Ok (translate_failure (js "invalid json")).
Proof.
  refine (@unreadable_body_is_500 sample_engine Translate (load_config both_keys)
            (VObj (translate_body (js "cat") (js "English") (js "French")))
            (stub (Resolved {| ok := true; statusText := js "OK";
                               json := JsonRejected (js "invalid json") |}))
            {| ok := true; statusText := js "OK";
               json := JsonRejected (js "invalid json") |}
            (js "invalid json") (fun _ => eq_refl) eq_refl _).
  vm_compute. discriminate.
Defined.

(* ================================================================== *)
(** ** More on [/translate] *)

(** With the credential set and the three fields truthy, [/translate]
    calls [text.includes], builds the prompt and makes the outbound call;
    a failure of the first two goes to the [catch] block. *)
Lemma run_translate_checked `{Engine} (cfg : config)
    (req_body text sourceLang targetLang : value) (up : upstream) :
  truthy (key_value (GEMINI_API_KEY cfg)) = true ->
  destructure req_body (js "text") = Ok text ->
  destructure req_body (js "sourceLang") = Ok sourceLang ->
  destructure req_body (js "targetLang") = Ok targetLang ->
  truthy text = true ->
  truthy sourceLang = true ->
  truthy targetLang = true ->
  run (translate cfg req_body) up
  = match call_includes (js "text.includes") text (js " ") with
    | Throw e => translate_catch e up []
    | Ok has_space =>
        match (if negb has_space
               then single_word_prompt text sourceLang targetLang
               else multi_word_prompt text sourceLang targetLang) with
        | Throw e => translate_catch e up []
        | Ok prompt =>
            try_catch
              (response <- fetch (post_json (gemini_url (GEMINI_API_KEY cfg))
                                            (gemini_body prompt)) ;;
               translate_on_response response)
              translate_catch up []
        end
    end.
Proof.
  intros K Ht Hs Hg Nt Ns Ng.
  unfold translate, run. rewrite K. cbn [negb].
  unfold try_catch, bind at 1 2 3 4 5, lift.
  rewrite Ht, Hs, Hg, Nt, Ns, Ng. cbn [negb orb].
  destruct (call_includes _ text _) as [b | e]; [|reflexivity].
  destruct (if negb b then _ else _); reflexivity.
Qed.

(** X12: a [text] that is truthy but neither a string nor an array (a
    number, [true], an object) has no [includes] method: [/translate]
    answers 500 from its [catch] block and makes no outbound call. *)
Theorem translate_text_without_includes `{Engine} (cfg : config)
    (req_body text sourceLang targetLang : value) (up : upstream) :
  truthy (key_value (GEMINI_API_KEY cfg)) = true ->
  destructure req_body (js "text") = Ok text ->
  destructure req_body (js "sourceLang") = Ok sourceLang ->
  destructure req_body (js "targetLang") = Ok targetLang ->
  truthy text = true ->
  truthy sourceLang = true ->
  truthy targetLang = true ->
  (forall s, text <> VStr s) ->
  (forall elems, text <> VArr elems) ->
  fst (run (translate cfg req_body) up)
  = Ok (translate_failure
          (type_error_message (TE_not_a_function (js "text.includes"))))
  /\ outbound (snd (run (translate cfg req_body) up)) = [].
Proof.
  intros K Ht Hs Hg Nt Ns Ng NotS NotA.
  rewrite (run_translate_checked cfg req_body up K Ht Hs Hg Nt Ns Ng).
  destruct text; try discriminate; try (split; reflexivity).
  - now elim (NotS s).
  - now elim (NotA elems).
Qed.

Lemma translate_text_without_includes_witness :
  fst (run (translate (H := sample_engine) (load_config both_keys)
              (VObj [(js "text", VNum (number_of_nat 42));
                     (js "sourceLang", VStr (js "English"));
                     (js "targetLang", VStr (js "French"))]))
           (stub (Resolved (ok_response (gemini_reply (js "chat"))))))
  = Ok (translate_failure (js "text.includes is not a function"))
  /\ outbound (snd (run (translate (H := sample_engine) (load_config both_keys)
                           (VObj [(js "text", VNum (number_of_nat 42));
                                  (js "sourceLang", VStr (js "English"));
                                  (js "targetLang", VStr (js "French"))]))
                        (stub (Resolved (ok_response (gemini_reply (js "chat")))))))
     = [].
Proof.
  refine (@translate_text_without_includes sample_engine (load_config both_keys)
            (VObj [(js "text", VNum (number_of_nat 42));
                   (js "sourceLang", VStr (js "English"));
                   (js "targetLang", VStr (js "French"))])
            (VNum (number_of_nat 42)) (VStr (js "English")) (VStr (js "French"))
            (stub (Resolved (ok_response (gemini_reply (js "chat")))))
            eq_refl eq_refl eq_refl eq_refl eq_refl eq_refl eq_refl _ _);
    discriminate.
Defined.

(** An array of strings prints as the strings joined by commas. *)
Lemma to_string_strings `{Engine} (strs : list jsstring) :
  to_string (VArr (map VStr strs)) = Ok (join (js ",") strs).
Proof.
  induction strs as [|x strs IH]; [reflexivity|].
  destruct strs as [|y strs]; [reflexivity|].
  change (to_string (VArr (map VStr (x :: y :: strs))))
    with (match to_string (VArr (map VStr (y :: strs))) with
          | Throw e => Throw e
          | Ok sr => Ok (x ++ js "," ++ sr)
          end).
  rewrite IH. reflexivity.
Qed.

Lemma existsb_strings (p : jsstring -> bool) (strs : list jsstring) :
  existsb (fun x => match x with
                    | VStr u => p u
                    | _ => false
                    end) (map VStr strs)
  = existsb p strs.
Proof.
  induction strs as [|x strs IH]; simpl; [reflexivity | now rewrite IH].
Qed.

(** X13: when [text] is an array of strings, [includes(' ')] looks for an
    element equal to " ", not for a space inside the text: the one outbound
    call carries the multi-word template exactly when some element is the
    one-space string, the single-word template otherwise, and the array is
    substituted as its elements joined by commas. *)
Theorem translate_array_text `{Engine} (cfg : config) (req_body : value)
    (strs : list jsstring) (key sourceLang targetLang : jsstring)
    (up : upstream) :
  GEMINI_API_KEY cfg = Some key ->
  key <> [] ->
  destructure req_body (js "text") = Ok (VArr (map VStr strs)) ->
  destructure req_body (js "sourceLang") = Ok (VStr sourceLang) ->
  destructure req_body (js "targetLang") = Ok (VStr targetLang) ->
  sourceLang <> [] ->
  targetLang <> [] ->
  outbound (snd (run (translate cfg req_body) up))
  = [ {| url := js "https://generativelanguage.googleapis.com/v1beta/models/gemini-1.5-flash-latest:generateContent?key="
                ++ key;
         method := js "POST";
         headers := [(js "Content-Type", js "application/json")];
         body :=
           VObj [(js "contents",
                  VArr [VObj [(js "parts",
                    VArr [VObj [(js "text",
                      VStr (if existsb (fun u => eqb u [SPACE]) strs
                            then js "Translate the following " ++ sourceLang
                                 ++ js " text to " ++ targetLang
                                 ++ js ". Provide ONLY the translated text. Text: "
                                 ++ [34%N] ++ join [44%N] strs ++ [34%N]
                            else js "Translate the word " ++ [34%N]
                                 ++ join [44%N] strs ++ [34%N]
                                 ++ js " from " ++ sourceLang ++ js " to "
                                 ++ targetLang
                                 ++ js ". Provide only the single translated word."))]])]])]
      |} ].
Proof.
  intros Hkey Hne Ht Hs Hg Ns Ng.
  assert (truthy (key_value (GEMINI_API_KEY cfg)) = true) as K
    by (rewrite Hkey; now apply truthy_str).
  apply truthy_str in Ns, Ng.
  rewrite (run_translate_checked cfg req_body up K Ht Hs Hg eq_refl Ns Ng).
  unfold call_includes. change (js " ") with [SPACE].
  rewrite (existsb_strings (fun u => eqb u [SPACE])).
  unfold single_word_prompt, multi_word_prompt.
  rewrite to_string_strings. cbn [to_string].
  unfold gemini_url, key_text. rewrite Hkey.
  destruct (existsb _ strs); cbn [negb];
    (rewrite try_fetch_outbound
       by (intros; first [apply translate_on_response_quiet
                         | apply translate_catch_quiet]));
    reflexivity.
Qed.

Lemma translate_array_text_witness :
  outbound (snd (run (translate (H := sample_engine) (load_config both_keys)
                        (VObj [(js "text", VArr [VStr (js "good morning");
                                                 VStr (js "all")]);
                               (js "sourceLang", VStr (js "English"));
                               (js "targetLang", VStr (js "French"))]))
                     (stub (Rejected []))))
  = [ {| url := js "https://generativelanguage.googleapis.com/v1beta/models/gemini-1.5-flash-latest:generateContent?key=gemini-key";
         method := js "POST";
         headers := [(js "Content-Type", js "application/json")];
         body :=
           VObj [(js "contents",
                  VArr [VObj [(js "parts",
                    VArr [VObj [(js "text",
                      VStr (js "Translate the word " ++ [34%N]
                            ++ js "good morning,all" ++ [34%N]
                            ++ js " from English to French. Provide only the single translated word."))]])]])]
      |} ].
Proof.
  refine (@translate_array_text sample_engine (load_config both_keys)
            (VObj [(js "text", VArr [VStr (js "good morning"); VStr (js "all")]);
                   (js "sourceLang", VStr (js "English"));
                   (js "targetLang", VStr (js "French"))])
            [js "good morning"; js "all"]
            (js "gemini-key") (js "English") (js "French")
            (stub (Rejected []))
            eq_refl _ eq_refl eq_refl eq_refl _ _);
    discriminate.
Defined.

(** X14: when the first candidate has no [content] (the array is not
    empty, so the candidate check passes), reading [content.parts] throws
    and [/translate] answers 500 with that TypeError's message as [details],
    not with the no-candidate message. *)
Theorem translate_candidate_without_content `{Engine} (cfg : config)
    (props : list (jsstring * value)) (text sourceLang targetLang : jsstring)
    (up : upstream) (r : fetch_response) (data c : value) (cs : list value) :
  truthy (key_value (GEMINI_API_KEY cfg)) = true ->
  string_field props (js "text") text ->
  string_field props (js "sourceLang") sourceLang ->
  string_field props (js "targetLang") targetLang ->
  up (translate_request cfg text sourceLang targetLang) = Resolved r ->
  ok r = true ->
  json r = JsonResolved data ->
  get data (KName (js "candidates")) = Ok (VArr (c :: cs)) ->
  get c (KName (js "content")) = Ok VUndefined ->
  fst (run (translate cfg (VObj props)) up)
  = Ok (translate_failure
          (type_error_message
             (TE_read_of_nullish VUndefined (KName (js "parts"))))).
Proof.
  intros K Ht Hs Hg Hup Hok Hj Hc Hcontent.
  rewrite run_translate_valid
    with (t := text) (s := sourceLang) (g := targetLang) by assumption.
  rewrite try_fetch_resolved with (r := r) by exact Hup.
  unfold try_catch, translate_on_response, response_json, bind, lift, ret.
  rewrite Hj, Hok, (no_candidates_array _ Hc). cbn [negb].
  unfold first_candidate_text. rewrite Hc. cbn [get nth_error or_undefined].
  rewrite Hcontent. reflexivity.
Qed.

Lemma translate_candidate_without_content_witness :
  fst (run (translate (H := sample_engine) (load_config both_keys)
              (VObj (translate_body (js "cat") (js "English") (js "French"))))
           (stub (Resolved (ok_response
                    (obj1 "candidates"
                       (VArr [obj1 "finishReason" (VStr (js "SAFETY"))]))))))
  = Ok (translate_failure
          (js "Cannot read properties of undefined (reading 'parts')")).
Proof.
  refine (@translate_candidate_without_content sample_engine
            (load_config both_keys)
            (translate_body (js "cat") (js "English") (js "French"))
            (js "cat") (js "English") (js "French")
            (stub (Resolved (ok_response
                     (obj1 "candidates"
                        (VArr [obj1 "finishReason" (VStr (js "SAFETY"))])))))
            (ok_response
               (obj1 "candidates"
                  (VArr [obj1 "finishReason" (VStr (js "SAFETY"))])))
            (obj1 "candidates" (VArr [obj1 "finishReason" (VStr (js "SAFETY"))]))
            (obj1 "finishReason" (VStr (js "SAFETY"))) []
            eq_refl _ _ _ eq_refl eq_refl eq_refl eq_refl eq_refl);
    (split; [reflexivity | discriminate]).
Defined.

(** X15: on a non-success status, an [error] field that is truthy but has
    no [message] (a bare string, say) makes [new Error(undefined)]: the
    [details] of the 500 response is the empty string, and neither the
    field nor the status text reaches the client. *)
Theorem translate_error_without_message `{Engine} (cfg : config)
    (props : list (jsstring * value)) (text sourceLang targetLang : jsstring)
    (up : upstream) (r : fetch_response) (data err : value) :
  truthy (key_value (GEMINI_API_KEY cfg)) = true ->
  string_field props (js "text") text ->
  string_field props (js "sourceLang") sourceLang ->
  string_field props (js "targetLang") targetLang ->
  up (translate_request cfg text sourceLang targetLang) = Resolved r ->
  ok r = false ->
  json r = JsonResolved data ->
  get data (KName (js "error")) = Ok err ->
  truthy err = true ->
  get err (KName (js "message")) = Ok VUndefined ->
  fst (run (translate cfg (VObj props)) up) = Ok (translate_failure []).
Proof.
  intros K Ht Hs Hg Hup Hok Hj He Te Hm.
  rewrite run_translate_valid
    with (t := text) (s := sourceLang) (g := targetLang) by assumption.
  rewrite try_fetch_resolved with (r := r) by exact Hup.
  apply translate_on_failure with (data := data) (v := VUndefined)
                                  (e := Error []); auto.
  unfold upstream_error_message. now rewrite He, Te.
Qed.

Lemma translate_error_without_message_witness :
  fst (run (translate (H := sample_engine) (load_config both_keys)
              (VObj (translate_body (js "cat") (js "English") (js "French"))))
           (stub (Resolved (error_response (js "Too Many Requests")
                              (obj1 "error" (VStr (js "quota exceeded")))))))
  = Ok (translate_failure []).
Proof.
  refine (@translate_error_without_message sample_engine (load_config both_keys)
            (translate_body (js "cat") (js "English") (js "French"))
            (js "cat") (js "English") (js "French")
            (stub (Resolved (error_response (js "Too Many Requests")
                               (obj1 "error" (VStr (js "quota exceeded"))))))
            (error_response (js "Too Many Requests")
                            (obj1 "error" (VStr (js "quota exceeded"))))
            (obj1 "error" (VStr (js "quota exceeded")))
            (VStr (js "quota exceeded"))
            eq_refl _ _ _ eq_refl eq_refl eq_refl eq_refl eq_refl eq_refl);
    (split; [reflexivity | discriminate]).
Defined.

(* ================================================================== *)
(** ** More on [/synthesize-speech] *)

(** X10: a [/synthesize-speech] request with the credential set and both
    fields truthy makes exactly one outbound call, whatever the upstream
    answers: a POST of JSON to the synthesis URL carrying the key, with a
    NEUTRAL voice and MP3 encoding.  The two fields go out as
    [JSON.stringify] writes them: unchanged when they are strings (or any
    value it writes as it is), while a Number that is not finite goes out as
    [null]. *)
Theorem synthesize_outbound_request `{Engine} (cfg : config)
    (req_body text langCode : value) (key : jsstring) (up : upstream) :
  TTS_API_KEY cfg = Some key ->
  key <> [] ->
  destructure req_body (js "text") = Ok text ->
  destructure req_body (js "langCode") = Ok langCode ->
  truthy text = true ->
  truthy langCode = true ->
  exists sent_text sent_langCode,
    outbound (snd (run (synthesize_speech cfg req_body) up))
    = [ {| url := js "https://texttospeech.googleapis.com/v1/text:synthesize?key="
                  ++ key;
           method := js "POST";
           headers := [(js "Content-Type", js "application/json")];
           body := VObj [ (js "input", VObj [(js "text", sent_text)]);
                          (js "voice",
                           VObj [(js "languageCode", sent_langCode);
                                 (js "ssmlGender", VStr (js "NEUTRAL"))]);
                          (js "audioConfig",
                           VObj [(js "audioEncoding", VStr (js "MP3"))]) ] |} ]
    /\ sent_text = JSON_stringify text
    /\ sent_langCode = JSON_stringify langCode
    /\ (json_exact text = true -> sent_text = text)
    /\ (json_exact langCode = true -> sent_langCode = langCode).
Proof.
  intros Hkey Hne Ht Hl Nt Nl.
  assert (truthy (key_value (TTS_API_KEY cfg)) = true) as K
    by (rewrite Hkey; now apply truthy_str).
  rewrite (run_synthesize_valid cfg req_body up K Ht Hl Nt Nl).
  rewrite try_fetch_outbound
    by (intros; first [apply synthesize_on_response_quiet
                      | apply synthesize_catch_quiet]).
  exists (JSON_stringify text), (JSON_stringify langCode).
  split; [|repeat split; apply JSON_stringify_exact].
  unfold tts_request, post_json, tts_url, key_text, tts_request_body, obj1, obj2.
  rewrite Hkey.
  destruct text; try discriminate Nt; destruct langCode; try discriminate Nl;
    reflexivity.
Qed.

Lemma synthesize_outbound_request_witness :
  exists sent_text sent_langCode,
    outbound (snd (run (synthesize_speech (H := sample_engine)
                          (load_config {| env_GEMINI_API_KEY := None;
                                          env_TTS_API_KEY := Some (js " k ") |})
                          (VObj [(js "text", VNum (S754_infinity false));
                                 (js "langCode", VStr (js "en-US"))]))
                       (stub (Rejected []))))
    = [ {| url := js "https://texttospeech.googleapis.com/v1/text:synthesize?key=k";
           method := js "POST";
           headers := [(js "Content-Type", js "application/json")];
           body := VObj [ (js "input", VObj [(js "text", sent_text)]);
                          (js "voice",
                           VObj [(js "languageCode", sent_langCode);
                                 (js "ssmlGender", VStr (js "NEUTRAL"))]);
                          (js "audioConfig",
                           VObj [(js "audioEncoding", VStr (js "MP3"))]) ] |} ]
    /\ sent_text = VNull
    /\ sent_langCode = VStr (js "en-US").
Proof.
  destruct (@synthesize_outbound_request sample_engine
              (load_config {| env_GEMINI_API_KEY := None;
                              env_TTS_API_KEY := Some (js " k ") |})
              (VObj [(js "text", VNum (S754_infinity false));
                     (js "langCode", VStr (js "en-US"))])
              (VNum (S754_infinity false)) (VStr (js "en-US"))
              (js "k") (stub (Rejected [])))
    as [sent_text [sent_langCode [Hout [Htext [Hlang _]]]]].
  - reflexivity.
  - discriminate.
  - reflexivity.
  - reflexivity.
  - reflexivity.
  - reflexivity.
  - exists sent_text, sent_langCode.
    split; [exact Hout|]. split; [exact Htext | exact Hlang].
Defined.

(** [/synthesize-speech], non-success status: the thrown error's message
    is the detail. *)
Lemma synthesize_on_failure `{Engine} (r : fetch_response) (data v : value)
    (e : error) up tr :
  ok r = false ->
  json r = JsonResolved data ->
  upstream_error_message (js "TTS API request failed: ") data r = Ok v ->
  new_Error v = Ok e ->
  fst (try_catch (synthesize_on_response r) synthesize_catch up tr)
  = Ok (synthesize_failure (error_message e)).
Proof.
  intros Hok Hj Hm He.
  unfold try_catch, synthesize_on_response, response_json, bind, lift, ret,
    throw, console_error.
  rewrite Hj, Hok. cbn [negb]. rewrite Hm, He. reflexivity.
Qed.

(** X9: when the upstream call of [/synthesize-speech] resolves with a
    non-success status and a JSON body, the response is HTTP 500 whose
    [details] is the [message] of the body's [error] field when that field
    is truthy, and "TTS API request failed: " followed by the status text
    when the field is absent or falsy. *)
Theorem synthesize_upstream_failure `{Engine} (cfg : config)
    (req_body text langCode : value) (up : upstream) (r : fetch_response)
    (data err : value) :
  truthy (key_value (TTS_API_KEY cfg)) = true ->
  destructure req_body (js "text") = Ok text ->
  destructure req_body (js "langCode") = Ok langCode ->
  truthy text = true ->
  truthy langCode = true ->
  up (tts_request cfg text langCode) = Resolved r ->
  ok r = false ->
  json r = JsonResolved data ->
  get data (KName (js "error")) = Ok err ->
  (forall message,
      truthy err = true ->
      get err (KName (js "message")) = Ok (VStr message) ->
      fst (run (synthesize_speech cfg req_body) up)
      = Ok {| status := 500;
              payload := obj2 "error" (VStr (js "Failed to synthesize speech"))
                              "details" (VStr message) |})
  /\ (truthy err = false ->
      fst (run (synthesize_speech cfg req_body) up)
      = Ok {| status := 500;
              payload := obj2 "error" (VStr (js "Failed to synthesize speech"))
                              "details"
                              (VStr (js "TTS API request failed: "
                                     ++ statusText r)) |}).
Proof.
  intros K Ht Hl Nt Nl Hup Hok Hj He.
  rewrite (run_synthesize_valid cfg req_body up K Ht Hl Nt Nl).
  rewrite try_fetch_resolved with (r := r) by exact Hup.
  split.
  - intros message Te Hm.
    apply synthesize_on_failure with (data := data) (v := VStr message)
                                     (e := Error message); auto.
    eapply upstream_error_message_present; eauto.
  - intros Te.
    apply synthesize_on_failure
      with (data := data)
           (v := VStr (js "TTS API request failed: " ++ statusText r))
           (e := Error (js "TTS API request failed: " ++ statusText r)); auto.
    unfold upstream_error_message. now rewrite He, Te.
Qed.

Lemma synthesize_upstream_failure_witness :
  fst (run (synthesize_speech (H := sample_engine) (load_config both_keys)
              (VObj (speech_body (js "hello") (js "en-US"))))
           (stub (Resolved (error_response (js "Forbidden")
                              (obj1 "error" VNull)))))
  = Ok (synthesize_failure (js "TTS API request failed: Forbidden")).
Proof.
  exact (proj2 (@synthesize_upstream_failure sample_engine (load_config both_keys)
                  (VObj (speech_body (js "hello") (js "en-US")))
                  (VStr (js "hello")) (VStr (js "en-US"))
                  (stub (Resolved (error_response (js "Forbidden")
                                     (obj1 "error" VNull))))
                  (error_response (js "Forbidden") (obj1 "error" VNull))
                  (obj1 "error" VNull) VNull
                  eq_refl eq_refl eq_refl eq_refl eq_refl eq_refl eq_refl
                  eq_refl eq_refl)
               eq_refl).
Defined.

(* ================================================================== *)
(** ** More on [/suggest-reply] *)

(** X11: a [/suggest-reply] request with the credential set and both fields
    truthy and convertible to strings makes exactly one outbound call,
    whatever the upstream answers: a POST of JSON to the generateContent
    URL carrying the key, whose one prompt is the instruction template with
    the language substituted twice and the text once, in double quotes. *)
Theorem suggest_outbound_request `{Engine} (cfg : config)
    (req_body text language : value) (key t l : jsstring) (up : upstream) :
  GEMINI_API_KEY cfg = Some key ->
  key <> [] ->
  destructure req_body (js "text") = Ok text ->
  destructure req_body (js "language") = Ok language ->
  truthy text = true ->
  truthy language = true ->
  to_string text = Ok t ->
  to_string language = Ok l ->
  outbound (snd (run (suggest_reply cfg req_body) up))
  = [ {| url := js "https://generativelanguage.googleapis.com/v1beta/models/gemini-1.5-flash-latest:generateContent?key="
                ++ key;
         method := js "POST";
         headers := [(js "Content-Type", js "application/json")];
         body :=
           VObj [(js "contents",
                  VArr [VObj [(js "parts",
                    VArr [VObj [(js "text",
                      VStr (js "I received a message in " ++ l
                            ++ js " that says: " ++ [34%N] ++ t ++ [34%N]
                            ++ js ". Suggest three short, common, and natural-sounding replies in "
                            ++ l
                            ++ js ". Provide ONLY the three replies, each on a new line. Do not add numbers, bullets, or any extra text."))]])]])]
      |} ].
Proof.
  intros Hkey Hne Ht Hl Nt Nl Tt Tl.
  assert (truthy (key_value (GEMINI_API_KEY cfg)) = true) as K
    by (rewrite Hkey; now apply truthy_str).
  rewrite (run_suggest_checked cfg req_body up K Ht Hl Nt Nl).
  unfold suggest_prompt. rewrite Tl, Tt.
  unfold gemini_url, key_text. rewrite Hkey.
  rewrite try_fetch_outbound
    by (intros; first [apply suggest_on_response_quiet
                      | apply suggest_catch_quiet]).
  reflexivity.
Qed.

Lemma suggest_outbound_request_witness :
  outbound (snd (run (suggest_reply (H := sample_engine) (load_config both_keys)
                        (VObj (suggest_body (js "hello") (js "English"))))
                     (stub (Rejected []))))
  = [ {| url := js "https://generativelanguage.googleapis.com/v1beta/models/gemini-1.5-flash-latest:generateContent?key=gemini-key";
         method := js "POST";
         headers := [(js "Content-Type", js "application/json")];
         body :=
           VObj [(js "contents",
                  VArr [VObj [(js "parts",
                    VArr [VObj [(js "text",
                      VStr (js "I received a message in English that says: "
                            ++ [34%N] ++ js "hello" ++ [34%N]
                            ++ js ". Suggest three short, common, and natural-sounding replies in English. Provide ONLY the three replies, each on a new line. Do not add numbers, bullets, or any extra text."))]])]])]
      |} ].
Proof.
  refine (@suggest_outbound_request sample_engine (load_config both_keys)
            (VObj (suggest_body (js "hello") (js "English")))
            (VStr (js "hello")) (VStr (js "English"))
            (js "gemini-key") (js "hello") (js "English") (stub (Rejected []))
            eq_refl _ eq_refl eq_refl eq_refl eq_refl eq_refl eq_refl).
  discriminate.
Defined.

(** A string with a unit that is not white space does not trim to the
    empty string. *)
Lemma trim_keeps_content (x : jsstring) (c : code_unit) :
  In c x -> is_white_space c = false -> trim x <> [].
Proof.
  intros Hin Hc E.
  destruct (trim_decompose x) as [pre [post [Hx [Fpre Fpost]]]].
  rewrite E in Hx. simpl in Hx. subst x.
  rewrite forallb_forall in Fpre, Fpost.
  apply in_app_or in Hin. destruct Hin as [I | I];
    [apply Fpre in I | apply Fpost in I]; congruence.
Qed.

Lemma non_blank_iff (x : jsstring) :
  non_blank x = true <-> exists c, In c x /\ is_white_space c = false.
Proof.
  unfold non_blank. rewrite negb_true_iff. split.
  - intros E. destruct (trim x) as [|c r] eqn:T; [discriminate|].
    exists c. split; [|eapply trim_first; eauto].
    destruct (trim_decompose x) as [pre [post [Hx _]]].
    rewrite Hx, T. apply in_or_app. right. now left.
  - intros [c [Hin Hc]].
    destruct (eqb (trim x) []) eqn:E; [|reflexivity].
    apply eqb_nil in E. now elim (trim_keeps_content x c).
Qed.

(** X16: every suggestion that [/suggest-reply] computes from the upstream
    text contains a unit that is not white space (so it is not empty) and
    contains no line feed. *)
Theorem suggestions_are_proper_lines (upstream_text : jsstring) :
  Forall (fun line => line <> []
                      /\ ~ In LF line
                      /\ exists c, In c line /\ is_white_space c = false)
         (suggestion_lines upstream_text).
Proof.
  unfold suggestion_lines. apply Forall_forall. intros line Hin.
  apply filter_In in Hin. destruct Hin as [Hsplit Hnb].
  apply non_blank_iff in Hnb. destruct Hnb as [c [Hc Hw]].
  split; [intros ->; contradiction|].
  split; [|eauto].
  pose proof (split_no_sep LF (trim upstream_text)) as F.
  rewrite Forall_forall in F. now apply F.
Qed.

(** X17: when the first candidate's text is nothing but white space (or is
    empty), a [/suggest-reply] request still succeeds, with an empty list of
    suggestions. *)
Theorem suggest_blank_text_is_empty_list `{Engine} (cfg : config)
    (props : list (jsstring * value)) (text language : jsstring)
    (up : upstream) (r : fetch_response) (data : value)
    (upstream_text : jsstring) :
  truthy (key_value (GEMINI_API_KEY cfg)) = true ->
  string_field props (js "text") text ->
  string_field props (js "language") language ->
  up (suggest_request cfg text language) = Resolved r ->
  ok r = true ->
  json r = JsonResolved data ->
  first_candidate_text data = Ok (VStr upstream_text) ->
  forallb is_white_space upstream_text = true ->
  fst (run (suggest_reply cfg (VObj props)) up)
  = Ok {| status := 200; payload := obj1 "suggestions" (VArr []) |}.
Proof.
  intros K Ht Hl Hup Hok Hj Htext Hws.
  rewrite run_suggest_valid with (t := text) (l := language) by assumption.
  rewrite try_fetch_resolved with (r := r) by exact Hup.
  rewrite suggest_on_success with (data := data) (t := upstream_text)
    by assumption.
  unfold suggestion_lines. rewrite (trim_white_space _ Hws). reflexivity.
Qed.

Lemma suggest_blank_text_is_empty_list_witness :
  fst (run (suggest_reply (H := sample_engine) (load_config both_keys)
              (VObj (suggest_body (js "hello") (js "English"))))
           (stub (Resolved (ok_response (gemini_reply (js "  " ++ [LF; LF]))))))
  = Ok {| status := 200; payload := obj1 "suggestions" (VArr []) |}.
Proof.
  exact (@suggest_blank_text_is_empty_list sample_engine (load_config both_keys)
           (suggest_body (js "hello") (js "English"))
           (js "hello") (js "English")
           (stub (Resolved (ok_response (gemini_reply (js "  " ++ [LF; LF])))))
           (ok_response (gemini_reply (js "  " ++ [LF; LF])))
           (gemini_reply (js "  " ++ [LF; LF])) (js "  " ++ [LF; LF])
           eq_refl
           (conj eq_refl (fun E => @List.nil_cons _ _ _ (eq_sym E)))
           (conj eq_refl (fun E => @List.nil_cons _ _ _ (eq_sym E)))
           eq_refl eq_refl eq_refl eq_refl eq_refl).
Defined.

Lemma drop_while_app (p : code_unit -> bool) (a b : jsstring) :
  drop_while p (a ++ b)
  = if forallb p a then drop_while p b else drop_while p a ++ b.
Proof.
  induction a as [|c a IH]; simpl; [reflexivity|].
  destruct (p c); simpl; [exact IH | reflexivity].
Qed.

Lemma trimStart_app_white (pre x : jsstring) :
  forallb is_white_space pre = true -> trimStart (pre ++ x) = trimStart x.
Proof. intros F. unfold trimStart. now rewrite drop_while_app, F. Qed.

Lemma trimEnd_app_white (x post : jsstring) :
  forallb is_white_space post = true -> trimEnd (x ++ post) = trimEnd x.
Proof.
  intros F. unfold trimEnd.
  rewrite rev_app_distr, drop_while_app, (forallb_rev _ _ F). reflexivity.
Qed.

(** White space added around a string does not change what [trim] gives. *)
Lemma trim_surrounded (pre x post : jsstring) :
  forallb is_white_space pre = true ->
  forallb is_white_space post = true ->
  trim (pre ++ x ++ post) = trim x.
Proof.
  intros Fpre Fpost. unfold trim.
  rewrite trimStart_app_white by assumption.
  unfold trimStart. rewrite drop_while_app.
  destruct (forallb is_white_space x) eqn:Fx.
  - rewrite (drop_while_all _ _ Fpost), (drop_while_all _ _ Fx). reflexivity.
  - now apply trimEnd_app_white.
Qed.

(** X18: white space around the upstream text, blank lines included, does
    not change the suggestions. *)
Theorem suggestions_ignore_surrounding_white_space
    (pre upstream_text post : jsstring) :
  forallb is_white_space pre = true ->
  forallb is_white_space post = true ->
  suggestion_lines (pre ++ upstream_text ++ post)
  = suggestion_lines upstream_text.
Proof.
  intros Fpre Fpost. unfold suggestion_lines.
  now rewrite trim_surrounded by assumption.
Qed.

Lemma suggestions_ignore_surrounding_white_space_witness :
  suggestion_lines ([LF; LF] ++ hi_thanks ++ js "  " ++ [LF])
  = suggestion_lines hi_thanks.
Proof.
  exact (@suggestions_ignore_surrounding_white_space [LF; LF] hi_thanks
           (js "  " ++ [LF]) eq_refl eq_refl).
Defined.

Lemma split_snoc (sep c : code_unit) (s : jsstring) :
  c <> sep ->
  exists init piece, split sep (s ++ [c]) = init ++ [piece ++ [c]].
Proof.
  intros Hc. induction s as [|x s [init [piece IH]]]; simpl.
  - destruct (N.eqb c sep) eqn:E; [apply N.eqb_eq in E; contradiction|].
    exists [], []. reflexivity.
  - rewrite IH. destruct (N.eqb x sep).
    + exists ([] :: init), piece. reflexivity.
    + destruct init as [|i0 init]; simpl.
      * exists [], (x :: piece). reflexivity.
      * exists ((x :: i0) :: init), piece. reflexivity.
Qed.

(** X19: the first suggestion does not start with white space and the last
    one does not end with white space (the whole text was trimmed); lines in
    between keep theirs. *)
Theorem suggestions_outer_edges_trimmed (upstream_text : jsstring) :
  (forall first rest,
      suggestion_lines upstream_text = first :: rest ->
      exists c tail, first = c :: tail /\ is_white_space c = false)
  /\ (forall init last,
         suggestion_lines upstream_text = init ++ [last] ->
         exists front c, last = front ++ [c] /\ is_white_space c = false).
Proof.
  unfold suggestion_lines. split.
  - intros first rest E.
    destruct (trim upstream_text) as [|c u] eqn:T; [discriminate|].
    pose proof (@trim_first upstream_text c u T) as Hc.
    assert (N.eqb c LF = false) as Hlf.
    { destruct (N.eqb c LF) eqn:Q; [|reflexivity].
      apply N.eqb_eq in Q. subst c. discriminate. }
    simpl in E. rewrite Hlf in E.
    assert (forall piece, non_blank (c :: piece) = true) as NB.
    { intros piece. apply non_blank_iff. exists c. split; [now left | exact Hc]. }
    destruct (split LF u) as [|piece others]; simpl in E; rewrite NB in E;
      inversion E; eauto.
  - intros init last E.
    destruct (exists_last (l := trim upstream_text)) as [front [c T]].
    { intros T. rewrite T in E. simpl in E. now destruct init. }
    pose proof (@trim_last upstream_text c front T) as Hc.
    assert (c <> LF) as Hlf by (intros ->; discriminate).
    destruct (@split_snoc LF c front Hlf) as [pieces [piece S]].
    rewrite T, S, filter_app in E. simpl in E.
    assert (non_blank (piece ++ [c]) = true) as NB.
    { apply non_blank_iff. exists c. split; [|exact Hc].
      apply in_or_app. right. now left. }
    rewrite NB in E. apply app_inj_tail in E. destruct E as [_ <-]. eauto.
Qed.

Lemma suggestions_outer_edges_trimmed_witness :
  exists c tail, js "a" = c :: tail /\ is_white_space c = false.
Proof.
  exact (proj1 (suggestions_outer_edges_trimmed leading_space)
               (js "a") [js "b"] eq_refl).
Defined.

(* ================================================================== *)
(** ** The configuration *)

(** X20: an endpoint's credential counts as configured exactly when its
    environment variable is set to a string with at least one unit that is
    not white space; the key then used is that string trimmed. *)
Theorem configured_iff_env_not_blank (ep : endpoint) (env : process_env) :
  truthy (key_value (credential ep (load_config env))) = true
  <-> exists s c,
        env_credential ep env = Some s
        /\ In c s /\ is_white_space c = false
        /\ credential ep (load_config env) = Some (trim s).
Proof.
  rewrite credential_load. unfold load_key. split.
  - destruct (env_credential ep env) as [s|]; [|discriminate].
    destruct (truthy (VStr s)) eqn:Ts; [|discriminate].
    intros T. apply truthy_str in T.
    destruct (trim s) as [|c r] eqn:E; [now elim T|].
    exists s, c. split; [reflexivity|].
    split; [|split; [eapply trim_first; eauto | now rewrite E]].
    destruct (trim_decompose s) as [pre [post [Hs _]]].
    rewrite Hs, E. apply in_or_app. right. now left.
  - intros [s [c [E [Hin [Hc _]]]]]. rewrite E.
    assert (truthy (VStr s) = true) as Ts
      by (apply truthy_str; intros ->; contradiction).
    rewrite Ts. apply truthy_str. now apply (trim_keeps_content s c).
Qed.
